(** * Intraclass correlation coefficient: a model of [ICC/icc.py]

    The function [icc] of the repository is embedded as a Rocq function in
    an error monad.  The model follows the Python text line by line:

    - Python exceptions are the constructors of [exn]; a call either
      returns ([Ok]) or raises ([Err]).
    - NumPy float64 values are exact rationals extended with the IEEE
      special values ([PInf], [NInf], [NaN]).  Rounding and overflow are
      not modelled and zero is unsigned; NumPy arithmetic never raises on a
      zero divisor, it yields an infinity or a NaN.
    - Python scalars ([r0], [confidence_level], the shape integers) are
      rationals and integers with exact arithmetic; true division of Python
      scalars raises [ZeroDivisionError] on a zero divisor.
    - NumPy values are 0-d scalars or 1-d arrays with broadcasting; a
      ratings input is an array of any number of dimensions.
    - SciPy's F distribution ([f.cdf], [f.ppf]) is an external collaborator
      and enters as the record [FDist].

    Since rounding is outside the model, the properties stated for every
    input are about what rounding cannot change: which exception a call
    raises, the shapes and the degrees of freedom of the results, the
    arguments a result depends on, and the range of the coefficient as a
    function of the mean squares.  Where a hypothesis on [r0] or on the
    ratings is needed to keep float64 and exact arithmetic in agreement
    ([r0 >= 0], integer ratings with exact sums), it is part of the
    statement.  Particular values are computed on the data of the test
    suite; the auxiliary lemmas are statements about the model. *)

From Stdlib Require Import String QArith Qreduction ZArith List Bool Lia Lqa.
Import ListNotations.

(** ** Python exceptions and the error monad *)

Inductive exn : Set :=
| ValueError
| TypeError
| ZeroDivisionError
| UnboundLocalError.

Inductive result (A : Type) : Type :=
| Ok (a : A)
| Err (e : exn).

Arguments Ok {A} a.
Arguments Err {A} e.

Definition bind {A B : Type} (m : result A) (k : A -> result B) : result B :=
  match m with
  | Ok a => k a
  | Err e => Err e
  end.

Definition result_map {A B : Type} (f : A -> B) (m : result A) : result B :=
  bind m (fun a => Ok (f a)).

Declare Scope py_scope.
Delimit Scope py_scope with py.
Notation "x <- m ;; k" := (bind m (fun x => k))
  (at level 61, m at next level, right associativity) : py_scope.
Open Scope py_scope.

(** ** Floating-point values *)

Inductive float : Set :=
| Fin (q : Q)
| PInf
| NInf
| NaN.

(** Finite values are kept in lowest terms, so that equal numbers are equal
    terms. *)
Definition fin (q : Q) : float := Fin (Qred q).

Definition of_int (z : Z) : float := Fin (inject_Z z).

(** The infinity (or NaN) whose sign is given by a comparison with zero. *)
Definition inf_of_cmp (c : comparison) : float :=
  match c with
  | Gt => PInf
  | Lt => NInf
  | Eq => NaN
  end.

Definition fadd (x y : float) : float :=
  match x, y with
  | Fin a, Fin b => fin (a + b)
  | NaN, _ | _, NaN => NaN
  | PInf, NInf | NInf, PInf => NaN
  | PInf, _ | _, PInf => PInf
  | NInf, _ | _, NInf => NInf
  end.

Definition fsub (x y : float) : float :=
  match x, y with
  | Fin a, Fin b => fin (a - b)
  | NaN, _ | _, NaN => NaN
  | PInf, PInf | NInf, NInf => NaN
  | PInf, _ | _, NInf => PInf
  | NInf, _ | _, PInf => NInf
  end.

Definition fmul (x y : float) : float :=
  match x, y with
  | Fin a, Fin b => fin (a * b)
  | NaN, _ | _, NaN => NaN
  | Fin a, PInf | PInf, Fin a => inf_of_cmp (a ?= 0)
  | Fin a, NInf | NInf, Fin a => inf_of_cmp (CompOpp (a ?= 0))
  | PInf, PInf | NInf, NInf => PInf
  | PInf, NInf | NInf, PInf => NInf
  end.

Definition fdiv (x y : float) : float :=
  match x, y with
  | Fin a, Fin b =>
      match b ?= 0 with
      | Eq => inf_of_cmp (a ?= 0)
      | _ => fin (a / b)
      end
  | NaN, _ | _, NaN => NaN
  | Fin _, PInf | Fin _, NInf => Fin 0
  | PInf, Fin b => match b ?= 0 with Lt => NInf | _ => PInf end
  | NInf, Fin b => match b ?= 0 with Lt => PInf | _ => NInf end
  | PInf, PInf | PInf, NInf | NInf, PInf | NInf, NInf => NaN
  end.

Definition fsum (l : list float) : float := fold_left fadd l (Fin 0).

(** Order on floats; every comparison with NaN is false. *)
Definition fle (x y : float) : Prop :=
  match x, y with
  | Fin a, Fin b => a <= b
  | NaN, _ | _, NaN => False
  | NInf, _ | _, PInf => True
  | _, _ => False
  end.

Definition fleb (x y : float) : bool :=
  match x, y with
  | Fin a, Fin b => Qle_bool a b
  | NaN, _ | _, NaN => false
  | NInf, _ | _, PInf => true
  | _, _ => false
  end.

Definition is_finite (x : float) : bool :=
  match x with Fin _ => true | _ => false end.

(** ** Python scalar arithmetic *)

Definition py_div (a b : Q) : result Q :=
  match b ?= 0 with
  | Eq => Err ZeroDivisionError
  | _ => Ok (a / b)
  end.

(** ** NumPy values with broadcasting *)

Inductive npval : Type :=
| Scalar (x : float)
| Vec (xs : list float).

Fixpoint map2 (f : float -> float -> float) (l1 l2 : list float) : list float :=
  match l1, l2 with
  | x :: l1', y :: l2' => f x y :: map2 f l1' l2'
  | _, _ => []
  end.

(** Two 1-d arrays combine when their lengths agree or one has length 1;
    any other pair of shapes cannot be broadcast. *)
Definition np_binop (f : float -> float -> float) (a b : npval) : result npval :=
  match a, b with
  | Scalar x, Scalar y => Ok (Scalar (f x y))
  | Scalar x, Vec l => Ok (Vec (map (f x) l))
  | Vec l, Scalar y => Ok (Vec (map (fun x => f x y) l))
  | Vec l1, Vec l2 =>
      if Nat.eqb (length l1) (length l2) then Ok (Vec (map2 f l1 l2))
      else match l1, l2 with
           | [x], _ => Ok (Vec (map (f x) l2))
           | _, [y] => Ok (Vec (map (fun x => f x y) l1))
           | _, _ => Err ValueError
           end
  end.

Definition np_add := np_binop fadd.
Definition np_sub := np_binop fsub.
Definition np_mul := np_binop fmul.
Definition np_div := np_binop fdiv.

Definition np_map (f : float -> float) (a : npval) : npval :=
  match a with
  | Scalar x => Scalar (f x)
  | Vec l => Vec (map f l)
  end.

(** [np.sum] without an axis. *)
Definition np_sum (a : npval) : npval :=
  match a with
  | Scalar x => Scalar x
  | Vec l => Scalar (fsum l)
  end.

(** [^] on NumPy values is the ufunc [bitwise_xor], which exists for integer
    and boolean dtypes only.  Every value of this model is a float64, so the
    ufunc finds no loop for its operands and raises [TypeError]. *)
Definition np_bitwise_xor (a b : npval) : result npval := Err TypeError.

(** A Python integer as a NumPy operand. *)
Definition np_int (z : Z) : npval := Scalar (of_int z).

(** A Python float as a NumPy operand. *)
Definition np_float (q : Q) : npval := Scalar (fin q).

(** Every entry satisfies [P]. *)
Definition np_all (P : float -> Prop) (a : npval) : Prop :=
  match a with
  | Scalar x => P x
  | Vec l => Forall P l
  end.

Definition np_existsb (p : float -> bool) (a : npval) : bool :=
  match a with
  | Scalar x => p x
  | Vec l => existsb p l
  end.

(** [np.mean] and [np.var] (population variance, [ddof=0]) of a flat list.
    An empty list gives [0/0], that is NaN. *)
Definition np_mean (l : list float) : float :=
  fdiv (fsum l) (of_int (Z.of_nat (length l))).

Definition np_var (l : list float) : float :=
  let m := np_mean l in
  np_mean (map (fun x => fmul (fsub x m) (fsub x m)) l).

(** ** The ratings array *)

(** A ratings input is an array of any number of dimensions: a 0-d array,
    a 1-d array, a 2-d array with its shape [(n, k)] and its rows, or an
    array of [3 + extra] dimensions.  Only the entries of 1-d and 2-d arrays
    are kept: the others are never read. *)
Inductive ndarray : Type :=
| Arr0
| Arr1 (v : list Q)
| Arr2 (n k : nat) (rows : list (list Q))
| ArrHigh (extra : nat).

(** [ratings.ndim], the length of [ratings.shape]. *)
Definition ndim (ratings : ndarray) : nat :=
  match ratings with
  | Arr0 => 0
  | Arr1 _ => 1
  | Arr2 _ _ _ => 2
  | ArrHigh extra => 3 + extra
  end.


Definition row_floats (r : list Q) : list float := map fin r.

Definition column (rows : list (list Q)) (j : nat) : list float :=
  map (fun r => fin (nth j r 0)) rows.

Definition columns (k : nat) (rows : list (list Q)) : list (list float) :=
  map (column rows) (seq 0 k).

Definition flatten (rows : list (list Q)) : list float :=
  concat (map row_floats rows).

(** ** The F distribution of SciPy *)

Record FDist : Type := {
  F_cdf : float -> float -> float -> float;
  F_ppf : float -> float -> float -> float
}.

(** ** The program *)

Open Scope string_scope.
Open Scope Z_scope.

(** The variance decomposition of lines 69-76, shared by all branches. *)
Record decomposition : Type := {
  n_subjects : Z;
  n_raters : Z;
  SStotal : npval;
  MSr : npval;
  MSw : npval;
  MSc : npval;
  MSe : npval
}.

(** The tuple returned by [icc].  [df2] is a Python integer in the one-way
    and consistency branches and the NumPy value [v] in the agreement
    branches. *)
Inductive pynum : Type :=
| PyInt (z : Z)
| NpVal (a : npval).

Record ICCResult : Type := {
  coeff : npval;
  Fvalue : npval;
  df1 : Z;
  df2 : pynum;
  pvalue : npval;
  lbound : npval;
  ubound : npval
}.

(** [n_subjects, n_raters = ratings.shape]: unpacking a shape that does not
    have exactly two elements into two names raises [ValueError]. *)
Definition unpack_shape (ratings : ndarray) : result (Z * Z) :=
  match ratings with
  | Arr2 n k _ => Ok (Z.of_nat n, Z.of_nat k)
  | Arr0 | Arr1 _ | ArrHigh _ => Err ValueError
  end.

Definition rows_of (ratings : ndarray) : list (list Q) :=
  match ratings with
  | Arr1 v => map (fun x => [x]) v
  | Arr2 _ _ rows => rows
  | Arr0 | ArrHigh _ => []
  end.

Definition ncols_of (ratings : ndarray) : nat :=
  match ratings with
  | Arr1 _ => 1%nat
  | Arr2 _ k _ => k
  | Arr0 | ArrHigh _ => 0%nat
  end.

(** [np.mean(ratings, axis=0)]: one mean per column (rater). *)
Definition mean_axis0 (ratings : ndarray) : npval :=
  Vec (map np_mean (columns (ncols_of ratings) (rows_of ratings))).

(** [np.var(ratings, axis=0)]: one variance per column (rater). *)
Definition var_axis0 (ratings : ndarray) : npval :=
  Vec (map np_var (columns (ncols_of ratings) (rows_of ratings))).

(** [np.mean(ratings, axis=1)]: one mean per row (subject). *)
Definition mean_axis1 (ratings : ndarray) : list float :=
  map (fun r => np_mean (row_floats r)) (rows_of ratings).

(** [np.var(ratings)]: the variance of all entries. *)
Definition var_all (ratings : ndarray) : npval :=
  Scalar (np_var (flatten (rows_of ratings))).

(** Lines 69-76:
    [SStotal = np.var(ratings) * (n_subjects * n_raters - 1)],
    [MSr = np.mean(ratings, axis=0) * n_raters],
    [MSw = np.sum(np.var(ratings, axis=0) / n_subjects)],
    [MSc = np.var(np.mean(ratings, axis=1)) * n_subjects],
    [MSe = (SStotal - MSr * (n_subjects - 1) - MSc * (n_raters - 1))
           / ((n_subjects - 1) * (n_raters - 1))]. *)
Definition anova (ratings : ndarray) : result decomposition :=
  shape <- unpack_shape ratings ;;
  let '(n_subjects, n_raters) := shape in
  SStotal <- np_mul (var_all ratings) (np_int (n_subjects * n_raters - 1)) ;;
  MSr <- np_mul (mean_axis0 ratings) (np_int n_raters) ;;
  vw <- np_div (var_axis0 ratings) (np_int n_subjects) ;;
  let MSw := np_sum vw in
  MSc <- np_mul (Scalar (np_var (mean_axis1 ratings))) (np_int n_subjects) ;;
  t1 <- np_mul MSr (np_int (n_subjects - 1)) ;;
  t2 <- np_sub SStotal t1 ;;
  t3 <- np_mul MSc (np_int (n_raters - 1)) ;;
  t4 <- np_sub t2 t3 ;;
  MSe <- np_div t4 (np_int ((n_subjects - 1) * (n_raters - 1))) ;;
  Ok {| n_subjects := n_subjects; n_raters := n_raters; SStotal := SStotal;
        MSr := MSr; MSw := MSw; MSc := MSc; MSe := MSe |}.

Section Branches.

Variable D : FDist.

(** [f.cdf(x, df1, df2)] with an array of statistics and scalar degrees of
    freedom, and with an array in the place of [df2]. *)
Definition np_cdf (x : npval) (d1 : Z) (d2 : pynum) : result npval :=
  match d2 with
  | PyInt z => Ok (np_map (fun x => F_cdf D x (of_int d1) (of_int z)) x)
  | NpVal v => np_binop (fun x d => F_cdf D x (of_int d1) d) x v
  end.

(** [f.ppf(p, df1, df2)] at Python scalars. *)
Definition ppf (p : Q) (d1 d2 : Z) : npval :=
  Scalar (F_ppf D (fin p) (of_int d1) (of_int d2)).

(** The two F ratios of the confidence interval of the one-way and
    consistency branches: [FL = (MSr / MSx) / f.ppf(1 - alpha / 2, d1, d2)]
    and [FU = (MSr / MSx) * f.ppf(1 - alpha / 2, d2, d1)]. *)
Definition conf_FL (MSr MSx : npval) (alpha : Q) (d1 d2 : Z) : result npval :=
  ratio <- np_div MSr MSx ;;
  np_div ratio (ppf (1 - alpha / 2) d1 d2).

Definition conf_FU (MSr MSx : npval) (alpha : Q) (d1 d2 : Z) : result npval :=
  ratio <- np_div MSr MSx ;;
  np_mul ratio (ppf (1 - alpha / 2) d2 d1).

(** [(F - 1) / (F + (n_raters - 1))] *)
Definition bound_single (F : npval) (n_raters : Z) : result npval :=
  num <- np_sub F (np_int 1) ;;
  den <- np_add F (np_int (n_raters - 1)) ;;
  np_div num den.

(** [1 - 1 / F] *)
Definition bound_average (F : npval) : result npval :=
  inv <- np_div (np_int 1) F ;;
  np_sub (np_int 1) inv.

(** The denominator [MSr + (n_raters - 1) * MSx] of the single-score
    coefficients. *)
Definition single_denominator (MSr MSx : npval) (n_raters : Z) : result npval :=
  kx <- np_mul (np_int (n_raters - 1)) MSx ;;
  np_add MSr kx.

(** Lines 84-94 and 102-112: the single-score branches for the one-way
    model ([MSx = MSw], [df2 = N (K - 1)]) and for two-way consistency
    ([MSx = MSe], [df2 = (N - 1) (K - 1)]). *)
Definition single_branch (d : decomposition) (MSx : npval) (df2 : Z)
    (r0 alpha : Q) : result ICCResult :=
  let N := n_subjects d in
  let K := n_raters d in
  num <- np_sub (MSr d) MSx ;;
  den <- single_denominator (MSr d) MSx K ;;
  coeff <- np_div num den ;;
  ratio <- np_div (MSr d) MSx ;;
  s <- py_div (1 - r0) (1 + inject_Z (K - 1) * r0) ;;
  Fvalue <- np_mul ratio (np_float s) ;;
  let df1 := N - 1 in
  c <- np_cdf Fvalue df1 (PyInt df2) ;;
  pvalue <- np_sub (np_int 1) c ;;
  FL <- conf_FL (MSr d) MSx alpha df1 df2 ;;
  FU <- conf_FU (MSr d) MSx alpha df1 df2 ;;
  lbound <- bound_single FL K ;;
  ubound <- bound_single FU K ;;
  Ok {| coeff := coeff; Fvalue := Fvalue; df1 := df1; df2 := PyInt df2;
        pvalue := pvalue; lbound := lbound; ubound := ubound |}.

(** Lines 145-155 and 162-172: the average-score branches. *)
Definition average_branch (d : decomposition) (MSx : npval) (df2 : Z)
    (r0 alpha : Q) : result ICCResult :=
  let N := n_subjects d in
  num <- np_sub (MSr d) MSx ;;
  coeff <- np_div num (MSr d) ;;
  ratio <- np_div (MSr d) MSx ;;
  Fvalue <- np_mul ratio (np_float (1 - r0)) ;;
  let df1 := N - 1 in
  c <- np_cdf Fvalue df1 (PyInt df2) ;;
  pvalue <- np_sub (np_int 1) c ;;
  FL <- conf_FL (MSr d) MSx alpha df1 df2 ;;
  FU <- conf_FU (MSr d) MSx alpha df1 df2 ;;
  lbound <- bound_average FL ;;
  ubound <- bound_average FU ;;
  Ok {| coeff := coeff; Fvalue := Fvalue; df1 := df1; df2 := PyInt df2;
        pvalue := pvalue; lbound := lbound; ubound := ubound |}.

End Branches.

Section Agreement.

Variable D : FDist.

(** The weighted sum [a * MSc + b * MSe]. *)
Definition weighted (a b MSc MSe : npval) : result npval :=
  x <- np_mul a MSc ;;
  y <- np_mul b MSe ;;
  np_add x y.

(** [a = (n_raters * coeff) / (n_subjects * (1 - coeff))] *)
Definition a_of_coeff (coeff : npval) (N K : Z) : result npval :=
  num <- np_mul (np_int K) coeff ;;
  c1 <- np_sub (np_int 1) coeff ;;
  den <- np_mul (np_int N) c1 ;;
  np_div num den.

(** [b = 1 + (n_raters * coeff * (n_subjects - 1)) / (n_subjects * (1 - coeff))] *)
Definition b_of_coeff (coeff : npval) (N K : Z) : result npval :=
  kc <- np_mul (np_int K) coeff ;;
  num <- np_mul kc (np_int (N - 1)) ;;
  c1 <- np_sub (np_int 1) coeff ;;
  den <- np_mul (np_int N) c1 ;;
  q <- np_div num den ;;
  np_add (np_int 1) q.

(** Lines 126-127 and 183-184.  In Python [^] binds less tightly than [/]
    and [+], so the text
    [(a*MSc + b*MSe) ^ 2 / ((a*MSc) ^ 2 / (K-1) + (b*MSe) ^ 2 / ((N-1)*(K-1)))]
    is the exclusive or of [a*MSc + b*MSe] with [2 / (...)], and the inner
    text is [((a*MSc) ^ (2 / (K-1) + b*MSe)) ^ (2 / ((N-1)*(K-1)))].
    Operands are evaluated from left to right. *)
Definition satterthwaite_v (a b MSc MSe : npval) (N K : Z) : result npval :=
  lhs <- weighted a b MSc MSe ;;
  x <- np_mul a MSc ;;
  t1 <- py_div 2 (inject_Z (K - 1)) ;;
  y <- np_mul b MSe ;;
  r1 <- np_add (np_float t1) y ;;
  x1 <- np_bitwise_xor x r1 ;;
  t2 <- py_div 2 (inject_Z ((N - 1) * (K - 1))) ;;
  inner <- np_bitwise_xor x1 (np_float t2) ;;
  rhs <- np_div (np_int 2) inner ;;
  np_bitwise_xor lhs rhs.

(** The part shared by lines 123-134 and 180-191: the F statistic with the
    weights of the null hypothesis, then [v], the p-value and the two
    quantiles with the weights recomputed from [coeff]. *)
Definition agreement_tail (d : decomposition) (coeff : npval) (a0 b0 : Q)
    (alpha : Q) : result (npval * npval * npval * npval * npval) :=
  let N := n_subjects d in
  let K := n_raters d in
  w <- weighted (np_float a0) (np_float b0) (MSc d) (MSe d) ;;
  Fvalue <- np_div (MSr d) w ;;
  a <- a_of_coeff coeff N K ;;
  b <- b_of_coeff coeff N K ;;
  v <- satterthwaite_v a b (MSc d) (MSe d) N K ;;
  let df1 := N - 1 in
  c <- np_cdf D Fvalue df1 (NpVal v) ;;
  pvalue <- np_sub (np_int 1) c ;;
  let p := fin (1 - alpha / 2) in
  let FL := np_map (fun x => F_ppf D p (of_int (N - 1)) x) v in
  let FU := np_map (fun x => F_ppf D p x (of_int (N - 1))) v in
  Ok (Fvalue, v, pvalue, FL, FU).

(** Lines 119-138: two-way agreement, single score. *)
Definition single_agreement (d : decomposition) (r0 alpha : Q)
    : result ICCResult :=
  let N := n_subjects d in
  let K := n_raters d in
  num <- np_sub (MSr d) (MSe d) ;;
  den1 <- single_denominator (MSr d) (MSe d) K ;;
  kn <- py_div (inject_Z K) (inject_Z N) ;;
  ce <- np_sub (MSc d) (MSe d) ;;
  den2 <- np_mul (np_float kn) ce ;;
  den <- np_add den1 den2 ;;
  coeff <- np_div num den ;;
  a0 <- py_div (inject_Z K * r0) (inject_Z N * (1 - r0)) ;;
  q0 <- py_div (inject_Z K * r0 * inject_Z (N - 1)) (inject_Z N * (1 - r0)) ;;
  let b0 := (1 + q0)%Q in
  tail <- agreement_tail d coeff a0 b0 alpha ;;
  let '(Fvalue, v, pvalue, FL, FU) := tail in
  (* lbound *)
  l1 <- np_mul FL (MSe d) ;;
  l2 <- np_sub (MSr d) l1 ;;
  lnum <- np_mul (np_int N) l2 ;;
  l3 <- np_mul (np_int K) (MSc d) ;;
  l4 <- np_mul (np_int (K * N - K - N)) (MSe d) ;;
  l5 <- np_add l3 l4 ;;
  l6 <- np_mul FL l5 ;;
  l7 <- np_mul (np_int N) (MSr d) ;;
  lden <- np_add l6 l7 ;;
  lbound <- np_div lnum lden ;;
  (* ubound *)
  u1 <- np_mul FU (MSr d) ;;
  u2 <- np_sub u1 (MSe d) ;;
  unum <- np_mul (np_int N) u2 ;;
  u3 <- np_mul (np_int K) (MSc d) ;;
  u4 <- np_mul (np_int (K * N - K - N)) (MSe d) ;;
  u5 <- np_add u3 u4 ;;
  u6 <- np_mul (np_int N) FU ;;
  u7 <- np_mul u6 (MSr d) ;;
  uden <- np_add u5 u7 ;;
  ubound <- np_div unum uden ;;
  Ok {| coeff := coeff; Fvalue := Fvalue; df1 := N - 1; df2 := NpVal v;
        pvalue := pvalue; lbound := lbound; ubound := ubound |}.

(** Lines 176-193: two-way agreement, average score. *)
Definition average_agreement (d : decomposition) (r0 alpha : Q)
    : result ICCResult :=
  let N := n_subjects d in
  let K := n_raters d in
  num <- np_sub (MSr d) (MSe d) ;;
  ce <- np_sub (MSc d) (MSe d) ;;
  den2 <- np_div ce (np_int N) ;;
  den <- np_add (MSr d) den2 ;;
  coeff <- np_div num den ;;
  a0 <- py_div r0 (inject_Z N * (1 - r0)) ;;
  q0 <- py_div (r0 * inject_Z (N - 1)) (inject_Z N * (1 - r0)) ;;
  let b0 := (1 + q0)%Q in
  tail <- agreement_tail d coeff a0 b0 alpha ;;
  let '(Fvalue, v, pvalue, FL, FU) := tail in
  (* lbound *)
  l1 <- np_mul FL (MSe d) ;;
  l2 <- np_sub (MSr d) l1 ;;
  lnum <- np_mul (np_int N) l2 ;;
  l3 <- np_sub (MSc d) (MSe d) ;;
  l4 <- np_mul FL l3 ;;
  l5 <- np_mul (np_int N) (MSr d) ;;
  lden <- np_add l4 l5 ;;
  lbound <- np_div lnum lden ;;
  (* ubound *)
  u1 <- np_mul FU (MSr d) ;;
  u2 <- np_sub u1 (MSe d) ;;
  unum <- np_mul (np_int N) u2 ;;
  u3 <- np_sub (MSc d) (MSe d) ;;
  u4 <- np_mul (np_int N) FU ;;
  u5 <- np_mul u4 (MSr d) ;;
  uden <- np_add u3 u5 ;;
  ubound <- np_div unum uden ;;
  Ok {| coeff := coeff; Fvalue := Fvalue; df1 := N - 1; df2 := NpVal v;
        pvalue := pvalue; lbound := lbound; ubound := ubound |}.

(** The function [icc].  A branch that matches no string assigns nothing,
    and the [return] statement then reads the unassigned local [coeff]:
    Python raises [UnboundLocalError]. *)
Definition icc (ratings : ndarray) (model type unit : string)
    (r0 confidence_level : Q) : result ICCResult :=
  d <- anova ratings ;;
  let N := n_subjects d in
  let K := n_raters d in
  let alpha := (1 - confidence_level)%Q in
  if String.eqb unit "single" then
    if String.eqb model "oneway" then
      single_branch D d (MSw d) (N * (K - 1)) r0 alpha
    else if String.eqb model "twoway" then
      if String.eqb type "consistency" then
        single_branch D d (MSe d) ((N - 1) * (K - 1)) r0 alpha
      else if String.eqb type "agreement" then
        single_agreement d r0 alpha
      else Err UnboundLocalError
    else Err UnboundLocalError
  else if String.eqb unit "average" then
    if String.eqb model "oneway" then
      average_branch D d (MSw d) (N * (K - 1)) r0 alpha
    else if String.eqb model "twoway" then
      if String.eqb type "consistency" then
        average_branch D d (MSe d) ((N - 1) * (K - 1)) r0 alpha
      else if String.eqb type "agreement" then
        average_agreement d r0 alpha
      else Err UnboundLocalError
    else Err UnboundLocalError
  else Err UnboundLocalError.

End Agreement.

(** ** The data of the test suite *)

Definition row_of_Z (l : list Z) : list Q := map inject_Z l.

(** The ratings of Shrout and Fleiss (1979): 6 subjects, 4 raters. *)
Definition shrout : ndarray :=
  Arr2 6 4 (map row_of_Z
    [[9; 2; 5; 8]; [6; 1; 3; 2]; [8; 4; 6; 8];
     [7; 1; 2; 6]; [10; 5; 6; 9]; [6; 2; 4; 7]]).

(** The first case of Koo and Li (2016): two identical columns. *)
Definition koo_li : ndarray :=
  Arr2 5 2 (map row_of_Z [[4; 4]; [8; 8]; [12; 12]; [16; 16]; [20; 20]]).

Definition conf95 : Q := 95 # 100.

(** A matrix whose second subject reverses the first: the mean squares are
    positive and the rows have nearly equal means. *)
Definition crossed : ndarray :=
  Arr2 2 2 (map row_of_Z [[0; 10]; [10; 1]]).

(** The one-subject input of the test suite as a 1-d array, as a matrix with
    one row, and a matrix with one column. *)
Definition one_subject_1d : ndarray := Arr1 (row_of_Z [4; 2]).
Definition one_subject : ndarray := Arr2 1 2 (map row_of_Z [[4; 2]]).
Definition one_rater : ndarray := Arr2 2 1 (map row_of_Z [[1]; [3]]).

(** ** Vocabulary of the properties *)


(** The configurations for which some branch of [icc] assigns the results:
    the one-way model with any [type], the two-way model with
    ['consistency'] or ['agreement']. *)
Definition recognised (model type unit : string) : bool :=
  (String.eqb unit "single" || String.eqb unit "average") &&
  (String.eqb model "oneway" ||
   (String.eqb model "twoway" &&
    (String.eqb type "consistency" || String.eqb type "agreement"))).

(** Finite values that are at least zero, and finite values above zero. *)
Definition nonneg (x : float) : Prop :=
  match x with Fin q => (0 <= q)%Q | _ => False end.


(** A value is zero when it is the finite number zero. *)
Definition is_zero (x : float) : Prop :=
  match x with Fin q => (q == 0)%Q | _ => False end.

Definition nonzero (x : float) : Prop := ~ is_zero x.

(** [x] is finite and within [tol] of [target]. *)
Definition close_to (target tol : Q) (x : float) : bool :=
  match x with
  | Fin q => Qle_bool (target - tol) q && Qle_bool q (target + tol)
  | _ => false
  end.

(** The sample variance ([ddof=1]) of a list. *)
Definition sample_var (l : list float) : float :=
  let m := np_mean l in
  fdiv (fsum (map (fun x => fmul (fsub x m) (fsub x m)) l))
       (of_int (Z.of_nat (length l) - 1)).

(** The quantity that the specification gives for [MSr]: the
    between-subjects mean square of the analysis of variance, the number of
    raters times the variance of the subjects' means. *)
Definition between_subjects_ms (ratings : ndarray) : npval :=
  Scalar (fmul (of_int (Z.of_nat (ncols_of ratings)))
               (sample_var (mean_axis1 ratings))).

(** The shape of a value fits an axis of length [k]: a scalar, or an
    array of [k] entries. *)
Definition shaped (k : nat) (a : npval) : Prop :=
  match a with
  | Scalar _ => True
  | Vec l => length l = k
  end.

(** The entry at index [j], a scalar being broadcast to every index. *)
Definition np_get (a : npval) (j : nat) : float :=
  match a with
  | Scalar x => x
  | Vec l => nth j l NaN
  end.

(** The mean square that a branch sets against [MSr]: [MSw] for the one-way
    model, [MSe] for two-way consistency. *)
Definition error_ms (model type : string) (d : decomposition) : option npval :=
  if String.eqb model "oneway" then Some (MSw d)
  else if String.eqb model "twoway" && String.eqb type "consistency"
       then Some (MSe d)
       else None.

(** The second degrees of freedom of the branch: [N (K - 1)] for the
    one-way model, [(N - 1) (K - 1)] for two-way consistency. *)
Definition error_df (model : string) (d : decomposition) : Z :=
  if String.eqb model "oneway"
  then n_subjects d * (n_raters d - 1)
  else (n_subjects d - 1) * (n_raters d - 1).

(** The decomposition of the Shrout and Fleiss ratings. *)
Definition shrout_decomposition : decomposition :=
  {| n_subjects := 6; n_raters := 4;
     SStotal := Scalar (Fin (93265 # 576));
     MSr := Vec [Fin (92 # 3); Fin 10; Fin (52 # 3); Fin (80 # 3)];
     MSw := Scalar (Fin (143 # 72));
     MSc := Scalar (Fin (1349 # 96));
     MSe := Vec [Fin (-19337 # 8640); Fin (40183 # 8640);
                 Fin (19063 # 8640); Fin (-7817 # 8640)] |}.

(** ** Outcomes and projections of the result *)

(** The outcome of a call: it returns, or it raises an exception. *)
Inductive outcome : Set :=
| Returns
| Raises (e : exn).

Definition outcome_of {A : Type} (m : result A) : outcome :=
  match m with
  | Ok _ => Returns
  | Err e => Raises e
  end.

(** The divisor [1 + (n_raters - 1) * r0] of lines 85 and 103 is zero. *)
Definition single_divisor_zero (k : nat) (r0 : Q) : bool :=
  Qeq_bool (1 + inject_Z (Z.of_nat k - 1) * r0) 0.

(** The exception of a two-way agreement call on an array of shape
    [(n, k)]: the Python divisions by [n_subjects], by
    [n_subjects * (1 - r0)] and by [n_raters - 1] come before the exclusive
    or. *)
Definition agreement_error (n k : nat) (r0 : Q) : exn :=
  if Nat.eqb n 0 || Nat.eqb k 1 || Qeq_bool r0 1
  then ZeroDivisionError
  else TypeError.

(** The outcome of [icc] as a function of the shape, the configuration and
    [r0]. *)
Definition expected_outcome (ratings : ndarray) (model type unit : string)
    (r0 : Q) : outcome :=
  match ratings with
  | Arr2 n k _ =>
      if negb (recognised model type unit) then Raises UnboundLocalError
      else if String.eqb model "twoway" && String.eqb type "agreement"
      then Raises (agreement_error n k r0)
      else if String.eqb unit "single" && single_divisor_zero k r0
      then Raises ZeroDivisionError
      else Returns
  | Arr0 | Arr1 _ | ArrHigh _ => Raises ValueError
  end.

(** One of the divisors met by the single-score agreement branch is zero. *)
Definition agreement_divisor_zero (N K : Z) (r0 : Q) : bool :=
  Qeq_bool (inject_Z N) 0 || Qeq_bool (inject_Z N * (1 - r0)) 0
  || Qeq_bool (inject_Z (K - 1)) 0.

(** [df2] for an array of shape [(n, k)]: [n (k - 1)] for the one-way
    model, [(n - 1) (k - 1)] for two-way consistency. *)
Definition expected_df2 (model : string) (n k : nat) : Z :=
  if String.eqb model "oneway"
  then Z.of_nat n * (Z.of_nat k - 1)
  else (Z.of_nat n - 1) * (Z.of_nat k - 1).


(** The part of the result that does not come from the F test. *)
Definition interval_statistics (r : ICCResult) : npval * Z * pynum * npval * npval :=
  (coeff r, df1 r, df2 r, lbound r, ubound r).

(** A stand-in for the distribution, with a constant cdf and a constant
    quantile. *)
Definition constant_distribution (c q : Q) : FDist :=
  {| F_cdf := fun _ _ _ => Fin c; F_ppf := fun _ _ _ => Fin q |}.

(** The length of a 1-d array; a scalar has none. *)
Definition np_len (a : npval) : option nat :=
  match a with
  | Scalar _ => None
  | Vec l => Some (length l)
  end.

Definition array_lengths (r : ICCResult) : list (option nat) :=
  [np_len (coeff r); np_len (Fvalue r); np_len (pvalue r);
   np_len (lbound r); np_len (ubound r)].

(** The F test of the result: statistic, degrees of freedom, p-value. *)
Definition f_test (r : ICCResult) : npval * Z * pynum * npval :=
  (Fvalue r, df1 r, df2 r, pvalue r).


(** ** The error monad *)

Lemma bind_ok : forall (A B : Type) (m : result A) (k : A -> result B) (b : B),
  bind m k = Ok b -> exists a, m = Ok a /\ k a = Ok b.
Proof.
  intros A B [a | e] k b H; simpl in H.
  - exists a; split; [reflexivity | exact H].
  - discriminate H.
Qed.

(** Goals of the form [exists e, bind m k = Err e]: look at [m]; when it
    raises the goal is closed, when it returns the proof continues in [k]. *)
Ltac raise_or_continue :=
  match goal with
  | |- exists e, bind ?m _ = Err e =>
      let H := fresh "Hm" in
      destruct m eqn:H; cbn [bind]; [ | eexists; reflexivity ]
  end.

(** A chain of binds that returns: name every intermediate result. *)
Ltac invert_binds :=
  repeat match goal with
         | H : bind _ _ = Ok _ |- _ =>
             let a := fresh "a" in
             let Ha := fresh "Ha" in
             apply bind_ok in H; destruct H as (a & Ha & H)
         end.

Lemma py_div_ok : forall a b, ~ (b == 0)%Q -> py_div a b = Ok (a / b)%Q.
Proof.
  intros a b Hb. unfold py_div.
  destruct (b ?= 0)%Q eqn:E; try reflexivity.
  exfalso. apply Hb. apply Qeq_alt. exact E.
Qed.

(** ** Floating-point arithmetic on finite values *)

Lemma fdiv_fin : forall p q, ~ (q == 0)%Q -> fdiv (Fin p) (Fin q) = fin (p / q).
Proof.
  intros p q Hq. unfold fdiv.
  destruct (q ?= 0)%Q eqn:E; try reflexivity.
  exfalso. apply Hq. apply Qeq_alt. exact E.
Qed.

Lemma nonneg_inv : forall x, nonneg x -> exists q, x = Fin q /\ (0 <= q)%Q.
Proof.
  intros [q | | | ] H; simpl in H; try contradiction.
  exists q; split; [reflexivity | exact H].
Qed.


(** ** Rational inequalities behind the formulas *)

Lemma inject_Z_ge_1 : forall K : Z, 2 <= K -> (1 <= inject_Z (K - 1))%Q.
Proof.
  intros K HK. unfold Qle. simpl. lia.
Qed.

Section Rational.

Open Scope Q_scope.

(** [(a - b) / (a + k b)] lies between [-1] and [1]. *)
Lemma ratio_range : forall a b kk : Q,
  0 <= a -> 0 <= b -> 1 <= kk -> ~ a + kk * b == 0 ->
  -1 <= (a - b) / (a + kk * b) /\ (a - b) / (a + kk * b) <= 1.
Proof.
  intros a b kk Ha Hb Hk Hnz.
  assert (Hkb : b <= kk * b) by nra.
  set (t := kk * b) in *.
  assert (Hpos : 0 < a + t).
  { destruct (Qlt_le_dec 0 (a + t)) as [H | H]; [exact H | ].
    exfalso. apply Hnz. lra. }
  split.
  - apply Qle_shift_div_l; [exact Hpos | lra].
  - apply Qle_shift_div_r; [exact Hpos | lra].
Qed.

End Rational.

(** ** One entry of the coefficient *)

Lemma single_entry_range : forall (a b : Q) (K : Z),
  (0 <= a)%Q -> (0 <= b)%Q -> 2 <= K ->
  nonzero (fadd (Fin a) (fmul (of_int (K - 1)) (Fin b))) ->
  fle (Fin (-1)) (fdiv (fsub (Fin a) (Fin b))
                       (fadd (Fin a) (fmul (of_int (K - 1)) (Fin b))))
  /\ fle (fdiv (fsub (Fin a) (Fin b))
               (fadd (Fin a) (fmul (of_int (K - 1)) (Fin b)))) (Fin 1).
Proof.
  intros a b K Ha Hb HK Hnz.
  unfold of_int, fmul, fadd, fsub, fin in *.
  change (~ (Qred (a + Qred (inject_Z (K - 1) * b)) == 0)%Q) in Hnz.
  rewrite fdiv_fin by exact Hnz.
  unfold fin, fle.
  rewrite !Qred_correct in Hnz.
  rewrite !Qred_correct.
  apply ratio_range; auto using inject_Z_ge_1.
Qed.

Lemma average_entry_range : forall a b : Q,
  (0 <= a)%Q -> (0 <= b)%Q -> nonzero (Fin a) ->
  fle (fdiv (fsub (Fin a) (Fin b)) (Fin a)) (Fin 1).
Proof.
  intros a b Ha Hb Hnz. change (~ (a == 0)%Q) in Hnz.
  unfold fsub, fin. rewrite fdiv_fin by exact Hnz.
  unfold fin, fle. rewrite !Qred_correct.
  assert (Hpos : (0 < a)%Q).
  { destruct (Qlt_le_dec 0 a) as [H | H]; [exact H | ].
    exfalso. apply Hnz. lra. }
  apply Qle_shift_div_r; [exact Hpos | lra].
Qed.

(** ** Shapes and entries under broadcasting *)

Lemma length_map2 : forall f l1 l2,
  length l1 = length l2 -> length (map2 f l1 l2) = length l1.
Proof.
  intros f l1. induction l1 as [ | x l1 IH]; intros [ | y l2] H;
    simpl in *; try discriminate; [reflexivity | ].
  f_equal. apply IH. congruence.
Qed.

Lemma nth_map2 : forall f l1 l2 j,
  length l1 = length l2 -> (j < length l1)%nat ->
  nth j (map2 f l1 l2) NaN = f (nth j l1 NaN) (nth j l2 NaN).
Proof.
  intros f l1. induction l1 as [ | x l1 IH]; intros [ | y l2] j H Hj;
    simpl in *; try discriminate; try lia.
  destruct j as [ | j]; [reflexivity | ].
  apply IH; [congruence | lia].
Qed.

Lemma nth_map_NaN : forall (g : float -> float) l j,
  (j < length l)%nat -> nth j (map g l) NaN = g (nth j l NaN).
Proof.
  intros g l j Hj.
  rewrite (nth_indep (map g l) NaN (g NaN)) by (rewrite length_map; exact Hj).
  apply map_nth.
Qed.

(** Operands that fit one axis combine without a broadcasting error, and
    the result is computed entry by entry. *)
Lemma np_binop_shaped : forall f k a b,
  shaped k a -> shaped k b ->
  exists c, np_binop f a b = Ok c /\ shaped k c /\
    forall j, (j < k)%nat -> np_get c j = f (np_get a j) (np_get b j).
Proof.
  intros f k [x | l1] [y | l2] Ha Hb; simpl in Ha, Hb; simpl np_binop.
  - eexists; split; [reflexivity | split; [exact I | reflexivity]].
  - eexists; split; [reflexivity | split].
    + simpl. rewrite length_map. exact Hb.
    + intros j Hj. simpl. apply nth_map_NaN. lia.
  - eexists; split; [reflexivity | split].
    + simpl. rewrite length_map. exact Ha.
    + intros j Hj. simpl.
      apply (nth_map_NaN (fun x => f x y)). lia.
  - assert (Hlen : length l1 = length l2) by congruence.
    rewrite Hlen, Nat.eqb_refl.
    eexists; split; [reflexivity | split].
    + simpl. rewrite length_map2 by exact Hlen. exact Ha.
    + intros j Hj. simpl. apply nth_map2; [exact Hlen | lia].
Qed.

Lemma np_binop_get : forall f k a b c,
  shaped k a -> shaped k b -> np_binop f a b = Ok c ->
  shaped k c /\
  forall j, (j < k)%nat -> np_get c j = f (np_get a j) (np_get b j).
Proof.
  intros f k a b c Ha Hb Hc.
  destruct (np_binop_shaped f k a b Ha Hb) as (c' & Hc' & Hs & Hg).
  rewrite Hc in Hc'. injection Hc' as ->. split; assumption.
Qed.

Lemma shaped_np_map : forall g k a, shaped k a -> shaped k (np_map g a).
Proof.
  intros g k [x | l] H; simpl in *; [exact I | ].
  rewrite length_map. exact H.
Qed.

Lemma np_all_get : forall (P : float -> Prop) k a j,
  np_all P a -> shaped k a -> (j < k)%nat -> P (np_get a j).
Proof.
  intros P k [x | l] j Hall Hs Hj; simpl in *; [exact Hall | ].
  apply (proj1 (Forall_nth P l) Hall). lia.
Qed.

Lemma np_all_of_get : forall (P : float -> Prop) k a,
  shaped k a -> (0 < k)%nat ->
  (forall j, (j < k)%nat -> P (np_get a j)) -> np_all P a.
Proof.
  intros P k [x | l] Hs Hk H; simpl in *.
  - apply (H 0%nat Hk).
  - apply Forall_nth. intros i d Hi.
    rewrite (nth_indep l d NaN) by exact Hi. apply H. lia.
Qed.

Ltac shaped_tac :=
  first [ assumption
        | exact I
        | apply shaped_np_map; assumption ].

(** One NumPy operation of the goal on operands of known shape: name its
    result. *)
Ltac np_step k :=
  match goal with
  | |- context [np_binop ?f ?a ?b] =>
      let c := fresh "c" in
      let Hc := fresh "Hc" in
      let Hs := fresh "Hs" in
      destruct (np_binop_shaped f k a b) as (c & Hc & Hs & _);
      [ shaped_tac | shaped_tac | rewrite Hc; cbn [bind] ]
  end.



(** ** The variance decomposition *)

(** On a 2-d array the decomposition never raises; [MSr] and [MSe] are
    arrays with one entry per rater, the other mean squares are scalars. *)
Lemma anova_shape : forall n k rows,
  exists ss msr w c mse,
    anova (Arr2 n k rows) =
      Ok {| n_subjects := Z.of_nat n; n_raters := Z.of_nat k;
            SStotal := Scalar ss; MSr := Vec msr; MSw := Scalar w;
            MSc := Scalar c; MSe := Vec mse |}
    /\ length msr = k /\ length mse = k.
Proof.
  intros n k rows. do 5 eexists. split.
  - cbv [anova unpack_shape bind var_all mean_axis0 var_axis0 np_int
         np_mul np_div np_sub np_binop np_sum].
    reflexivity.
  - unfold columns. rewrite !length_map, length_seq. split; reflexivity.
Qed.

(** The facts about a decomposition that the branches use. *)
Lemma anova_facts : forall n k rows d,
  anova (Arr2 n k rows) = Ok d ->
  n_subjects d = Z.of_nat n /\ n_raters d = Z.of_nat k /\
  shaped k (MSr d) /\ shaped k (MSw d) /\ shaped k (MSe d).
Proof.
  intros n k rows d Ha.
  destruct (anova_shape n k rows) as (ss & msr & w & c & mse & Ha' & Hlr & Hle).
  rewrite Ha in Ha'. injection Ha' as ->.
  repeat split; assumption.
Qed.

(** For every 2-d input [MSr] is the array of the column means times the
    number of raters: one entry per rater. *)
Lemma MSr_per_rater : forall n k rows d,
  anova (Arr2 n k rows) = Ok d ->
  MSr d = Vec (map (fun j => fmul (np_mean (column rows j)) (of_int (Z.of_nat k)))
                   (seq 0 k)).
Proof.
  intros n k rows d H.
  cbv [anova unpack_shape bind var_all mean_axis0 var_axis0 np_int
       np_mul np_div np_sub np_binop np_sum] in H.
  injection H as <-. cbn [MSr rows_of ncols_of].
  unfold columns. rewrite !map_map. reflexivity.
Qed.

(** ** The exclusive or of lines 126-127 and 183-184 *)

Lemma satterthwaite_v_raises : forall a b MSc MSe N K,
  exists e, satterthwaite_v a b MSc MSe N K = Err e.
Proof.
  intros a b MSc MSe N K. unfold satterthwaite_v.
  do 5 raise_or_continue.
  unfold np_bitwise_xor. cbn [bind]. eexists; reflexivity.
Qed.

Lemma agreement_tail_raises : forall D d coeff a0 b0 alpha,
  exists e, agreement_tail D d coeff a0 b0 alpha = Err e.
Proof.
  intros D d c a0 b0 alpha. unfold agreement_tail.
  do 4 raise_or_continue.
  match goal with
  | |- exists e, bind (satterthwaite_v ?a ?b ?c ?m ?n ?k) _ = Err e =>
      destruct (satterthwaite_v_raises a b c m n k) as [e He]; rewrite He
  end.
  cbn [bind]. eexists; reflexivity.
Qed.

Ltac tail_raises :=
  match goal with
  | |- exists e, bind (agreement_tail ?D ?d ?c ?a ?b ?al) _ = Err e =>
      let e := fresh "e" in
      let He := fresh "He" in
      destruct (agreement_tail_raises D d c a b al) as [e He]; rewrite He;
      cbn [bind]; eexists; reflexivity
  end.

Lemma single_agreement_raises : forall D d r0 alpha,
  exists e, single_agreement D d r0 alpha = Err e.
Proof.
  intros D d r0 alpha. unfold single_agreement.
  do 9 raise_or_continue. tail_raises.
Qed.

Lemma average_agreement_raises : forall D d r0 alpha,
  exists e, average_agreement D d r0 alpha = Err e.
Proof.
  intros D d r0 alpha. unfold average_agreement.
  do 7 raise_or_continue. tail_raises.
Qed.

(** No call with the two-way model and type ['agreement'] returns. *)
Lemma twoway_agreement_raises : forall D ratings unit r0 cl,
  exists e, icc D ratings "twoway" "agreement" unit r0 cl = Err e.
Proof.
  intros D ratings unit r0 cl. unfold icc.
  raise_or_continue.
  cbn -[String.eqb single_agreement average_agreement].
  change (String.eqb "twoway" "oneway") with false.
  change (String.eqb "twoway" "twoway") with true.
  change (String.eqb "agreement" "consistency") with false.
  change (String.eqb "agreement" "agreement") with true.
  cbv iota.
  destruct (String.eqb unit "single").
  - apply single_agreement_raises.
  - destruct (String.eqb unit "average").
    + apply average_agreement_raises.
    + eexists; reflexivity.
Qed.

(** ** The dispatch on the configuration *)

(** A 1-d array has a shape of one element: unpacking it raises. *)
Lemma icc_1d_raises : forall D v model type unit r0 cl,
  icc D (Arr1 v) model type unit r0 cl = Err ValueError.
Proof. reflexivity. Qed.

(** When no branch matches, the 2-d call ends at the [return] statement
    with [UnboundLocalError]. *)
Lemma unrecognised_raises_unbound : forall D n k rows model type unit r0 cl,
  recognised model type unit = false ->
  icc D (Arr2 n k rows) model type unit r0 cl = Err UnboundLocalError.
Proof.
  intros D n k rows model type unit r0 cl Hrec.
  destruct (anova_shape n k rows) as (ss & msr & w & c & mse & Ha & _ & _).
  unfold icc. rewrite Ha. cbn [bind].
  unfold recognised in Hrec.
  destruct (String.eqb unit "single"), (String.eqb unit "average"),
    (String.eqb model "oneway"), (String.eqb model "twoway"),
    (String.eqb type "consistency"), (String.eqb type "agreement");
    simpl in Hrec; try discriminate Hrec; reflexivity.
Qed.

(** With the one-way model or two-way consistency the call is the single or
    the average branch at the mean square and the degrees of freedom of the
    model. *)
Lemma icc_dispatch : forall D ratings model type unit r0 cl d MSx,
  anova ratings = Ok d ->
  error_ms model type d = Some MSx ->
  unit = "single" \/ unit = "average" ->
  icc D ratings model type unit r0 cl =
  if String.eqb unit "single"
  then single_branch D d MSx (error_df model d) r0 (1 - cl)
  else average_branch D d MSx (error_df model d) r0 (1 - cl).
Proof.
  intros D ratings model type unit r0 cl d MSx Ha Hms Hunit.
  unfold icc. rewrite Ha. cbn [bind].
  unfold error_ms in Hms. unfold error_df.
  destruct (String.eqb model "oneway").
  - injection Hms as <-. destruct Hunit as [-> | ->]; reflexivity.
  - destruct (String.eqb model "twoway"), (String.eqb type "consistency");
      simpl in Hms; try discriminate Hms.
    injection Hms as <-. destruct Hunit as [-> | ->]; reflexivity.
Qed.

(** ** The one-way and consistency branches *)

Lemma single_branch_returns : forall D k d MSx df2 r0 alpha,
  shaped k (MSr d) -> shaped k MSx ->
  ~ (1 + inject_Z (n_raters d - 1) * r0 == 0)%Q ->
  exists r num den,
    single_branch D d MSx df2 r0 alpha = Ok r /\
    np_sub (MSr d) MSx = Ok num /\
    single_denominator (MSr d) MSx (n_raters d) = Ok den /\
    np_div num den = Ok (coeff r).
Proof.
  intros D k d MSx df2 r0 alpha Hr Hx Hr0.
  unfold single_branch, single_denominator, conf_FL, conf_FU, bound_single,
    np_cdf, ppf, np_int, np_float, np_add, np_sub, np_mul, np_div.
  rewrite (py_div_ok (1 - r0) _ Hr0).
  repeat np_step k.
  do 3 eexists. repeat split; first [reflexivity | simpl; assumption].
Qed.

Lemma average_branch_returns : forall D k d MSx df2 r0 alpha,
  shaped k (MSr d) -> shaped k MSx ->
  exists r num,
    average_branch D d MSx df2 r0 alpha = Ok r /\
    np_sub (MSr d) MSx = Ok num /\
    np_div num (MSr d) = Ok (coeff r).
Proof.
  intros D k d MSx df2 r0 alpha Hr Hx.
  unfold average_branch, conf_FL, conf_FU, bound_average,
    np_cdf, ppf, np_int, np_float, np_add, np_sub, np_mul, np_div.
  repeat np_step k.
  do 2 eexists. repeat split; first [reflexivity | simpl; assumption].
Qed.


(** *** The p-value *)

Lemma single_branch_pvalue : forall D d MSx z r0 alpha r,
  single_branch D d MSx z r0 alpha = Ok r ->
  exists c, np_cdf D (Fvalue r) (df1 r) (df2 r) = Ok c /\
            np_sub (np_int 1) c = Ok (pvalue r).
Proof.
  intros D d MSx z r0 alpha r H. unfold single_branch in H.
  invert_binds. injection H as <-. cbn [Fvalue df1 df2 pvalue].
  eexists; split; eassumption.
Qed.

Lemma average_branch_pvalue : forall D d MSx z r0 alpha r,
  average_branch D d MSx z r0 alpha = Ok r ->
  exists c, np_cdf D (Fvalue r) (df1 r) (df2 r) = Ok c /\
            np_sub (np_int 1) c = Ok (pvalue r).
Proof.
  intros D d MSx z r0 alpha r H. unfold average_branch in H.
  invert_binds. injection H as <-. cbn [Fvalue df1 df2 pvalue].
  eexists; split; eassumption.
Qed.

(** Whenever [icc] returns, the p-value is [1 - f.cdf(Fvalue, df1, df2)] at
    the returned statistic and degrees of freedom. *)
Lemma pvalue_is_upper_tail : forall D ratings model type unit r0 cl r,
  icc D ratings model type unit r0 cl = Ok r ->
  exists c, np_cdf D (Fvalue r) (df1 r) (df2 r) = Ok c /\
            np_sub (np_int 1) c = Ok (pvalue r).
Proof.
  intros D ratings model type unit r0 cl r H. unfold icc in H.
  apply bind_ok in H. destruct H as (d & _ & H).
  cbv zeta in H.
  destruct (String.eqb unit "single").
  - destruct (String.eqb model "oneway");
      [ eapply single_branch_pvalue; eassumption | ].
    destruct (String.eqb model "twoway"); [ | discriminate H ].
    destruct (String.eqb type "consistency");
      [ eapply single_branch_pvalue; eassumption | ].
    destruct (String.eqb type "agreement"); [ | discriminate H ].
    destruct (single_agreement_raises D d r0 (1 - cl)) as [e He].
    rewrite He in H. discriminate H.
  - destruct (String.eqb unit "average"); [ | discriminate H ].
    destruct (String.eqb model "oneway");
      [ eapply average_branch_pvalue; eassumption | ].
    destruct (String.eqb model "twoway"); [ | discriminate H ].
    destruct (String.eqb type "consistency");
      [ eapply average_branch_pvalue; eassumption | ].
    destruct (String.eqb type "agreement"); [ | discriminate H ].
    destruct (average_agreement_raises D d r0 (1 - cl)) as [e He].
    rewrite He in H. discriminate H.
Qed.

(** *** The range of the coefficient *)

Lemma single_coeff_range : forall k K msr MSx num den c,
  (0 < k)%nat -> 2 <= K ->
  shaped k msr -> shaped k MSx ->
  np_all nonneg msr -> np_all nonneg MSx ->
  np_sub msr MSx = Ok num ->
  single_denominator msr MSx K = Ok den ->
  np_all nonzero den ->
  np_div num den = Ok c ->
  np_all (fun x => fle (Fin (-1)) x /\ fle x (Fin 1)) c.
Proof.
  intros k K msr MSx num den c Hk HK Hsr Hsx Hr Hx Hnum Hden Hnz Hc.
  destruct (np_binop_get fsub k msr MSx num Hsr Hsx Hnum) as [Hsnum Hgnum].
  unfold single_denominator in Hden.
  apply bind_ok in Hden. destruct Hden as (kx & Hkx & Hden).
  destruct (np_binop_get fmul k (np_int (K - 1)) MSx kx I Hsx Hkx)
    as [Hskx Hgkx].
  destruct (np_binop_get fadd k msr kx den Hsr Hskx Hden) as [Hsden Hgden].
  destruct (np_binop_get fdiv k num den c Hsnum Hsden Hc) as [Hsc Hgc].
  apply (np_all_of_get _ k c Hsc Hk). intros j Hj.
  pose proof (np_all_get nonzero k den j Hnz Hsden Hj) as Hnzj.
  rewrite (Hgc j Hj), (Hgnum j Hj).
  rewrite (Hgden j Hj), (Hgkx j Hj) in *.
  destruct (nonneg_inv _ (np_all_get nonneg k msr j Hr Hsr Hj)) as (a & Ea & Ha).
  destruct (nonneg_inv _ (np_all_get nonneg k MSx j Hx Hsx Hj)) as (b & Eb & Hb).
  rewrite Ea, Eb in *.
  apply single_entry_range; assumption.
Qed.

Lemma average_coeff_range : forall k msr MSx num c,
  (0 < k)%nat ->
  shaped k msr -> shaped k MSx ->
  np_all nonneg msr -> np_all nonneg MSx ->
  np_sub msr MSx = Ok num ->
  np_all nonzero msr ->
  np_div num msr = Ok c ->
  np_all (fun x => fle x (Fin 1)) c.
Proof.
  intros k msr MSx num c Hk Hsr Hsx Hr Hx Hnum Hnz Hc.
  destruct (np_binop_get fsub k msr MSx num Hsr Hsx Hnum) as [Hsnum Hgnum].
  destruct (np_binop_get fdiv k num msr c Hsnum Hsr Hc) as [Hsc Hgc].
  apply (np_all_of_get _ k c Hsc Hk). intros j Hj.
  pose proof (np_all_get nonzero k msr j Hnz Hsr Hj) as Hnzj.
  rewrite (Hgc j Hj), (Hgnum j Hj).
  destruct (nonneg_inv _ (np_all_get nonneg k msr j Hr Hsr Hj)) as (a & Ea & Ha).
  destruct (nonneg_inv _ (np_all_get nonneg k MSx j Hx Hsx Hj)) as (b & Eb & Hb).
  rewrite Ea, Eb in *.
  apply average_entry_range; assumption.
Qed.

(** *** The confidence interval *)

(** ** The claims *)

(** C1 (fails on the code).  A ratings matrix with a single subject, and one
    with a single rater, are not rejected: [icc] returns a tuple.  For the
    one-row matrix [[4, 2]] the within mean square is zero, the coefficient
    is [1, 1] and the F statistic is infinite; for the one-column matrix
    [[1], [3]] the coefficient is [0.75] with [df2 = 0].  Only a 1-d input
    is rejected, by the unpacking of its shape. *)
Theorem degenerate_matrix_returns : forall D,
  result_map (fun r => (coeff r, Fvalue r, df1 r, df2 r))
    (icc D one_subject "oneway" "agreement" "single" 0 conf95)
  = Ok (Vec [Fin 1; Fin 1], Vec [PInf; PInf], 0, PyInt 1)
  /\
  result_map (fun r => (coeff r, Fvalue r, df1 r, df2 r))
    (icc D one_rater "oneway" "agreement" "single" 0 conf95)
  = Ok (Vec [Fin (3 # 4)], Vec [Fin 4], 1, PyInt 0)
  /\
  icc D one_subject_1d "oneway" "agreement" "single" 0 conf95
  = Err ValueError.
Proof.
  intro D. repeat split; vm_compute; reflexivity.
Qed.




(** C3 (fails on the code).  The text of [v] uses [^], which is the
    exclusive or: on float operands it raises, so no degrees of freedom are
    computed.  On the Shrout and Fleiss ratings both two-way agreement calls
    end with [TypeError]. *)
Theorem satterthwaite_v_is_exclusive_or : forall D,
  satterthwaite_v (Scalar (Fin 1)) (Scalar (Fin 1)) (Scalar (Fin 3))
                  (Scalar (Fin 4)) 6 4 = Err TypeError
  /\ icc D shrout "twoway" "agreement" "single" 0 conf95 = Err TypeError
  /\ icc D shrout "twoway" "agreement" "average" 0 conf95 = Err TypeError.
Proof.
  intro D. repeat split; vm_compute; reflexivity.
Qed.

(** C4 (fails on the code).  On the Shrout and Fleiss ratings [MSr] is the
    array of the four raters' means times the number of raters,
    [30.67, 10, 17.33, 26.67]; the between-subjects mean square is the
    number [11.24]. *)
Theorem MSr_is_column_means :
  result_map MSr (anova shrout)
  = Ok (Vec [Fin (92 # 3); Fin 10; Fin (52 # 3); Fin (80 # 3)])
  /\ between_subjects_ms shrout = Scalar (Fin (1349 # 120)).
Proof. split; vm_compute; reflexivity. Qed.

(** C5 (fails on the code).  For two identical columns [4, 8, 12, 16, 20]
    the coefficients are [0.304] (one-way, single), [0.5] (two-way
    consistency, single), [0.467] (one-way, average) and [0.667] (two-way
    consistency, average); the two agreement calls raise.  None is within
    [0.01] of [1]. *)
Theorem koo_li_coefficients : forall D,
  let near_one r := np_existsb (close_to 1 (1 # 100)) (coeff r) in
  result_map (fun r => (coeff r, near_one r))
    (icc D koo_li "oneway" "agreement" "single" 0 conf95)
    = Ok (Vec [Fin (7 # 23); Fin (7 # 23)], false)
  /\ result_map (fun r => (coeff r, near_one r))
       (icc D koo_li "twoway" "consistency" "single" 0 conf95)
    = Ok (Vec [Fin (1 # 2); Fin (1 # 2)], false)
  /\ result_map (fun r => (coeff r, near_one r))
       (icc D koo_li "oneway" "agreement" "average" 0 conf95)
    = Ok (Vec [Fin (7 # 15); Fin (7 # 15)], false)
  /\ result_map (fun r => (coeff r, near_one r))
       (icc D koo_li "twoway" "consistency" "average" 0 conf95)
    = Ok (Vec [Fin (2 # 3); Fin (2 # 3)], false)
  /\ icc D koo_li "twoway" "agreement" "single" 0 conf95 = Err TypeError
  /\ icc D koo_li "twoway" "agreement" "average" 0 conf95 = Err TypeError.
Proof.
  intro D. repeat split; vm_compute; reflexivity.
Qed.

(** C6 (fails on the code).  On the Shrout and Fleiss ratings, two-way
    consistency with a single score returns [df1 = 5] and [df2 = 15], but
    the coefficient is the array [1.374, 0.223, 0.632, 1.151] and the F
    statistic the array [-13.70, 2.150, 7.856, -29.47]: no entry is within
    [0.001] of [0.7148] or of [11.027]. *)
Theorem shrout_twoway_consistency_single : forall D,
  result_map (fun r => (coeff r, Fvalue r, df1 r, df2 r))
    (icc D shrout "twoway" "consistency" "single" 0 conf95)
  = Ok (Vec [Fin (284297 # 206949); Fin (46217 # 206949);
             Fin (130697 # 206949); Fin (238217 # 206949)],
        Vec [Fin (-264960 # 19337); Fin (86400 # 40183);
             Fin (149760 # 19063); Fin (-230400 # 7817)],
        5, PyInt 15)
  /\ result_map
       (fun r => (np_existsb (close_to (7148407 # 10000000) (1 # 1000)) (coeff r),
                  np_existsb (close_to (110272 # 10000) (1 # 1000)) (Fvalue r)))
       (icc D shrout "twoway" "consistency" "single" 0 conf95)
     = Ok (false, false).
Proof.
  intro D. split; vm_compute; reflexivity.
Qed.

(** C7 (fails on the code).  A call with the two-way model and type
    ['agreement'] never returns a p-value: for every input it raises before
    line 130 (and line 187) is reached. *)
Theorem twoway_agreement_no_pvalue : forall D ratings unit r0 cl,
  exists e,
    result_map pvalue (icc D ratings "twoway" "agreement" unit r0 cl) = Err e.
Proof.
  intros D ratings unit r0 cl.
  destruct (twoway_agreement_raises D ratings unit r0 cl) as [e He].
  exists e. rewrite He. reflexivity.
Qed.

(** C8 (fails on the code).  A call with the two-way model and type
    ['agreement'] never returns confidence bounds or a coefficient. *)
Theorem twoway_agreement_no_interval : forall D ratings unit r0 cl,
  exists e,
    result_map (fun r => (lbound r, coeff r, ubound r))
      (icc D ratings "twoway" "agreement" unit r0 cl) = Err e.
Proof.
  intros D ratings unit r0 cl.
  destruct (twoway_agreement_raises D ratings unit r0 cl) as [e He].
  exists e. rewrite He. reflexivity.
Qed.

(** C9, the claim as stated fails.  For the matrix [[0, 10], [10, 1]] the
    mean squares are positive ([MSr = [10, 11]], [MSw = 22.625]) and the
    denominator [MSr] of the average-score coefficient is not zero, yet the
    one-way average-score coefficient is [-1.2625, -1.0568]: its entries
    are below [-1]. *)
Lemma average_coeff_below_minus_one :
  result_map (fun d => (MSr d, MSw d)) (anova crossed)
  = Ok (Vec [Fin 10; Fin 11], Scalar (Fin (181 # 8)))
  /\
  (fun D => result_map coeff
              (icc D crossed "oneway" "agreement" "average" 0 conf95))
  = (fun _ => Ok (Vec [Fin (-101 # 80); Fin (-93 # 88)]))
  /\
  np_existsb (fleb (Fin (-1))) (Vec [Fin (-101 # 80); Fin (-93 # 88)]) = false.
Proof. repeat split; vm_compute; reflexivity. Qed.

(** C9 (amended).  In the one-way and two-way consistency branches, take
    mean squares [MSr] and [MSx] ([MSw] or [MSe]) that are finite and
    non-negative in every entry, for at least two raters.  When the
    denominator of the coefficient has no zero entry, every entry of a
    returned [coeff] is at most [1]; with [unit='single'] every entry is
    also at least [-1].  The statement ranges over the mean squares
    themselves, whatever matrix they were computed from: by [icc_dispatch]
    a call of [icc] with one of these configurations is [single_branch] or
    [average_branch] at the decomposition of its ratings. *)
Theorem coefficient_range_from_mean_squares :
  forall D k d MSx df2 r0 alpha,
    (2 <= k)%nat -> n_raters d = Z.of_nat k ->
    shaped k (MSr d) -> shaped k MSx ->
    np_all nonneg (MSr d) -> np_all nonneg MSx ->
    (forall den c,
       single_denominator (MSr d) MSx (n_raters d) = Ok den ->
       np_all nonzero den ->
       result_map coeff (single_branch D d MSx df2 r0 alpha) = Ok c ->
       np_all (fun x => fle (Fin (-1)) x /\ fle x (Fin 1)) c)
    /\
    (forall c,
       np_all nonzero (MSr d) ->
       result_map coeff (average_branch D d MSx df2 r0 alpha) = Ok c ->
       np_all (fun x => fle x (Fin 1)) c).
Proof.
  intros D k d MSx df2 r0 alpha Hk HK Hsr Hsx Hr Hx.
  assert (Hk0 : (0 < k)%nat) by lia.
  assert (HK2 : 2 <= n_raters d) by lia.
  split.
  - intros den c Hden Hnz Hc.
    destruct (single_branch D d MSx df2 r0 alpha) as [r | e] eqn:E;
      [ | discriminate Hc].
    cbn [result_map bind] in Hc. injection Hc as <-.
    unfold single_branch in E. rewrite Hden in E.
    destruct (np_sub (MSr d) MSx) as [num | e] eqn:Hnum;
      [ | discriminate E].
    cbn [bind] in E.
    destruct (np_div num den) as [c | e] eqn:Hc; [ | discriminate E].
    cbn [bind] in E.
    assert (Hcr : coeff r = c).
    { invert_binds. injection E as <-. reflexivity. }
    rewrite Hcr.
    exact (single_coeff_range k (n_raters d) (MSr d) MSx num den c
             Hk0 HK2 Hsr Hsx Hr Hx Hnum Hden Hnz Hc).
  - intros c Hnz Hc.
    destruct (average_branch D d MSx df2 r0 alpha) as [r | e] eqn:E;
      [ | discriminate Hc].
    cbn [result_map bind] in Hc. injection Hc as <-.
    unfold average_branch in E.
    destruct (np_sub (MSr d) MSx) as [num | e] eqn:Hnum;
      [ | discriminate E].
    cbn [bind] in E.
    destruct (np_div num (MSr d)) as [c | e] eqn:Hc; [ | discriminate E].
    cbn [bind] in E.
    assert (Hcr : coeff r = c).
    { invert_binds. injection E as <-. reflexivity. }
    rewrite Hcr.
    exact (average_coeff_range k (MSr d) MSx num c
             Hk0 Hsr Hsx Hr Hx Hnum Hnz Hc).
Qed.

(** The hypotheses of C9 (amended) hold for the mean squares [MSr] and
    [MSw] of the Shrout and Fleiss ratings, for both units. *)
Lemma coefficient_range_from_mean_squares_witness :
  (2 <= 4)%nat /\
  n_raters shrout_decomposition = Z.of_nat 4 /\
  shaped 4 (MSr shrout_decomposition) /\
  shaped 4 (MSw shrout_decomposition) /\
  np_all nonneg (MSr shrout_decomposition) /\
  np_all nonneg (MSw shrout_decomposition) /\
  single_denominator (MSr shrout_decomposition) (MSw shrout_decomposition)
    (n_raters shrout_decomposition)
    = Ok (Vec [Fin (293 # 8); Fin (383 # 24); Fin (559 # 24); Fin (261 # 8)]) /\
  np_all nonzero
    (Vec [Fin (293 # 8); Fin (383 # 24); Fin (559 # 24); Fin (261 # 8)]) /\
  result_map coeff
    (single_branch (constant_distribution (1 # 2) 2) shrout_decomposition
       (MSw shrout_decomposition) 18 0 (1 - conf95))
    = Ok (Vec [Fin (2065 # 2637); Fin (577 # 1149);
               Fin (85 # 129); Fin (1777 # 2349)]) /\
  np_all nonzero (MSr shrout_decomposition) /\
  result_map coeff
    (average_branch (constant_distribution (1 # 2) 2) shrout_decomposition
       (MSw shrout_decomposition) 18 0 (1 - conf95))
    = Ok (Vec [Fin (2065 # 2208); Fin (577 # 720);
               Fin (85 # 96); Fin (1777 # 1920)]) /\
  np_all (fun x => fle (Fin (-1)) x /\ fle x (Fin 1))
    (Vec [Fin (2065 # 2637); Fin (577 # 1149);
          Fin (85 # 129); Fin (1777 # 2349)]) /\
  np_all (fun x => fle x (Fin 1))
    (Vec [Fin (2065 # 2208); Fin (577 # 720); Fin (85 # 96); Fin (1777 # 1920)]).
Proof.
  assert (Hk : (2 <= 4)%nat) by lia.
  assert (HK : n_raters shrout_decomposition = Z.of_nat 4) by reflexivity.
  assert (Hsr : shaped 4 (MSr shrout_decomposition)) by reflexivity.
  assert (Hsx : shaped 4 (MSw shrout_decomposition)) by exact I.
  assert (Hr : np_all nonneg (MSr shrout_decomposition)).
  { simpl. repeat (apply Forall_cons; [simpl; unfold Qle; simpl; lia | ]).
    apply Forall_nil. }
  assert (Hx : np_all nonneg (MSw shrout_decomposition)).
  { simpl. unfold Qle; simpl; lia. }
  assert (Hden : single_denominator (MSr shrout_decomposition)
                   (MSw shrout_decomposition) (n_raters shrout_decomposition)
                 = Ok (Vec [Fin (293 # 8); Fin (383 # 24);
                            Fin (559 # 24); Fin (261 # 8)]))
    by (vm_compute; reflexivity).
  assert (Hnz : np_all nonzero
                  (Vec [Fin (293 # 8); Fin (383 # 24);
                        Fin (559 # 24); Fin (261 # 8)])).
  { simpl.
    repeat (apply Forall_cons; [unfold nonzero, is_zero, Qeq; simpl; lia | ]).
    apply Forall_nil. }
  assert (Hc1 : result_map coeff
                  (single_branch (constant_distribution (1 # 2) 2)
                     shrout_decomposition (MSw shrout_decomposition)
                     18 0 (1 - conf95))
                = Ok (Vec [Fin (2065 # 2637); Fin (577 # 1149);
                           Fin (85 # 129); Fin (1777 # 2349)]))
    by (vm_compute; reflexivity).
  assert (Hnzr : np_all nonzero (MSr shrout_decomposition)).
  { simpl.
    repeat (apply Forall_cons; [unfold nonzero, is_zero, Qeq; simpl; lia | ]).
    apply Forall_nil. }
  assert (Hck : result_map coeff
                  (average_branch (constant_distribution (1 # 2) 2)
                     shrout_decomposition (MSw shrout_decomposition)
                     18 0 (1 - conf95))
                = Ok (Vec [Fin (2065 # 2208); Fin (577 # 720);
                           Fin (85 # 96); Fin (1777 # 1920)]))
    by (vm_compute; reflexivity).
  repeat (split; [assumption | ]).
  split.
  - exact (proj1 (coefficient_range_from_mean_squares
                    (constant_distribution (1 # 2) 2) 4 shrout_decomposition
                    (MSw shrout_decomposition) 18 0 (1 - conf95)
                    Hk HK Hsr Hsx Hr Hx) _ _ Hden Hnz Hc1).
  - exact (proj2 (coefficient_range_from_mean_squares
                    (constant_distribution (1 # 2) 2) 4 shrout_decomposition
                    (MSw shrout_decomposition) 18 0 (1 - conf95)
                    Hk HK Hsr Hsx Hr Hx) _ Hnzr Hck).
Defined.

(** C10.  With the one-way model the [type] string has no influence: two
    calls that differ only in [type] give the same outcome. *)
Theorem oneway_ignores_type : forall D ratings type1 type2 unit r0 cl,
  icc D ratings "oneway" type1 unit r0 cl
  = icc D ratings "oneway" type2 unit r0 cl.
Proof.
  intros D ratings type1 type2 unit r0 cl. unfold icc.
  destruct (anova ratings) as [d | e]; cbn [bind]; [ | reflexivity ].
  change (String.eqb "oneway" "oneway") with true. cbv iota.
  reflexivity.
Qed.

(** ** Further properties of [icc] *)

Lemma py_div_spec : forall a b,
  py_div a b = if Qeq_bool b 0 then Err ZeroDivisionError else Ok (a / b)%Q.
Proof.
  intros a b. unfold py_div.
  destruct (Qeq_bool b 0) eqn:E.
  - apply Qeq_bool_iff in E. apply Qeq_alt in E. rewrite E. reflexivity.
  - destruct (b ?= 0)%Q eqn:C; try reflexivity.
    apply Qeq_alt in C. apply Qeq_bool_iff in C. congruence.
Qed.

Lemma single_branch_outcome : forall D k d MSx z r0 alpha,
  shaped k (MSr d) -> shaped k MSx ->
  outcome_of (single_branch D d MSx z r0 alpha)
  = if Qeq_bool (1 + inject_Z (n_raters d - 1) * r0) 0
    then Raises ZeroDivisionError else Returns.
Proof.
  intros D k d MSx z r0 alpha Hr Hx.
  destruct (Qeq_bool (1 + inject_Z (n_raters d - 1) * r0) 0) eqn:E.
  - unfold single_branch, single_denominator, np_int, np_add, np_sub, np_mul,
      np_div.
    rewrite py_div_spec, E.
    repeat np_step k. reflexivity.
  - assert (Hnz : ~ (1 + inject_Z (n_raters d - 1) * r0 == 0)%Q).
    { intro H. apply Qeq_bool_iff in H. congruence. }
    destruct (single_branch_returns D k d MSx z r0 alpha Hr Hx Hnz)
      as (r & _ & _ & Hret & _).
    rewrite Hret. reflexivity.
Qed.

Lemma average_branch_outcome : forall D k d MSx z r0 alpha,
  shaped k (MSr d) -> shaped k MSx ->
  outcome_of (average_branch D d MSx z r0 alpha) = Returns.
Proof.
  intros D k d MSx z r0 alpha Hr Hx.
  destruct (average_branch_returns D k d MSx z r0 alpha Hr Hx)
    as (r & _ & Hret & _).
  rewrite Hret. reflexivity.
Qed.

Lemma single_agreement_error : forall D k d r0 alpha,
  shaped k (MSr d) -> shaped k (MSc d) -> shaped k (MSe d) ->
  single_agreement D d r0 alpha
  = Err (if agreement_divisor_zero (n_subjects d) (n_raters d) r0
         then ZeroDivisionError else TypeError).
Proof.
  intros D k d r0 alpha Hr Hc He.
  unfold single_agreement, agreement_tail, satterthwaite_v, weighted,
    a_of_coeff, b_of_coeff, single_denominator, np_bitwise_xor,
    np_int, np_float, np_add, np_sub, np_mul, np_div, agreement_divisor_zero.
  rewrite !py_div_spec.
  destruct (Qeq_bool (inject_Z (n_subjects d)) 0);
    destruct (Qeq_bool (inject_Z (n_subjects d) * (1 - r0)) 0);
    destruct (Qeq_bool (inject_Z (n_raters d - 1)) 0);
    cbn [orb bind]; repeat np_step k; reflexivity.
Qed.

Lemma average_agreement_error : forall D k d r0 alpha,
  shaped k (MSr d) -> shaped k (MSc d) -> shaped k (MSe d) ->
  average_agreement D d r0 alpha
  = Err (if Qeq_bool (inject_Z (n_subjects d) * (1 - r0)) 0
            || Qeq_bool (inject_Z (n_raters d - 1)) 0
         then ZeroDivisionError else TypeError).
Proof.
  intros D k d r0 alpha Hr Hc He.
  unfold average_agreement, agreement_tail, satterthwaite_v, weighted,
    a_of_coeff, b_of_coeff, np_bitwise_xor,
    np_int, np_float, np_add, np_sub, np_mul, np_div.
  rewrite !py_div_spec.
  destruct (Qeq_bool (inject_Z (n_subjects d) * (1 - r0)) 0);
    destruct (Qeq_bool (inject_Z (n_raters d - 1)) 0);
    cbn [orb bind]; repeat np_step k; reflexivity.
Qed.

Lemma Qeq_bool_inject_Z : forall z, Qeq_bool (inject_Z z) 0 = Z.eqb z 0.
Proof.
  intro z. destruct (Z.eqb z 0) eqn:E.
  - apply Z.eqb_eq in E. subst z. reflexivity.
  - apply Z.eqb_neq in E.
    destruct (Qeq_bool (inject_Z z) 0) eqn:Q; [ | reflexivity].
    apply Qeq_bool_iff in Q. unfold Qeq in Q. simpl in Q. lia.
Qed.

Lemma Qeq_bool_product : forall (z : Z) (r0 : Q),
  Qeq_bool (inject_Z z * (1 - r0)) 0 = Z.eqb z 0 || Qeq_bool r0 1.
Proof.
  intros z r0.
  destruct (Z.eqb z 0) eqn:Ez.
  - apply Z.eqb_eq in Ez. subst z. simpl orb.
    apply Qeq_bool_iff. ring.
  - simpl orb. apply Z.eqb_neq in Ez.
    assert (Hz : ~ (inject_Z z == 0)%Q).
    { unfold Qeq. simpl. lia. }
    destruct (Qeq_bool r0 1) eqn:Er.
    + apply Qeq_bool_iff in Er. apply Qeq_bool_iff. rewrite Er. ring.
    + destruct (Qeq_bool (inject_Z z * (1 - r0)) 0) eqn:Ep; [ | reflexivity].
      apply Qeq_bool_iff in Ep.
      apply Qmult_integral in Ep. destruct Ep as [Ep | Ep]; [contradiction | ].
      assert (Hr : (r0 == 1)%Q) by lra.
      apply Qeq_bool_iff in Hr. congruence.
Qed.

Lemma agreement_error_single : forall n k r0,
  (if agreement_divisor_zero (Z.of_nat n) (Z.of_nat k) r0
   then ZeroDivisionError else TypeError)
  = agreement_error n k r0.
Proof.
  intros n k r0. unfold agreement_divisor_zero, agreement_error.
  rewrite !Qeq_bool_inject_Z, Qeq_bool_product.
  replace (Z.of_nat n =? 0) with (Nat.eqb n 0)
    by (destruct n; reflexivity).
  replace (Z.of_nat k - 1 =? 0) with (Nat.eqb k 1).
  2:{ destruct (Nat.eqb k 1) eqn:E.
      - apply Nat.eqb_eq in E. subst k. reflexivity.
      - apply Nat.eqb_neq in E. symmetry. apply Z.eqb_neq. lia. }
  destruct (Nat.eqb n 0), (Qeq_bool r0 1), (Nat.eqb k 1); reflexivity.
Qed.

Lemma agreement_error_average : forall n k r0,
  (if Qeq_bool (inject_Z (Z.of_nat n) * (1 - r0)) 0
      || Qeq_bool (inject_Z (Z.of_nat k - 1)) 0
   then ZeroDivisionError else TypeError)
  = agreement_error n k r0.
Proof.
  intros n k r0. unfold agreement_error.
  rewrite !Qeq_bool_inject_Z, Qeq_bool_product.
  replace (Z.of_nat n =? 0) with (Nat.eqb n 0)
    by (destruct n; reflexivity).
  replace (Z.of_nat k - 1 =? 0) with (Nat.eqb k 1).
  2:{ destruct (Nat.eqb k 1) eqn:E.
      - apply Nat.eqb_eq in E. subst k. reflexivity.
      - apply Nat.eqb_neq in E. symmetry. apply Z.eqb_neq. lia. }
  destruct (Nat.eqb n 0), (Qeq_bool r0 1), (Nat.eqb k 1); reflexivity.
Qed.

(** The outcome of every call: which calls return and which exception the
    others raise. *)
Lemma icc_outcome : forall D ratings model type unit r0 cl,
  outcome_of (icc D ratings model type unit r0 cl)
  = expected_outcome ratings model type unit r0.
Proof.
  intros D [ | v | n k rows | m] model type unit r0 cl; try reflexivity.
  destruct (anova_shape n k rows) as (ss & msr & w & c & mse & Ha & Hlr & Hle).
  set (d := {| n_subjects := Z.of_nat n; n_raters := Z.of_nat k;
               SStotal := Scalar ss; MSr := Vec msr; MSw := Scalar w;
               MSc := Scalar c; MSe := Vec mse |}) in *.
  assert (Hsr : shaped k (MSr d)) by exact Hlr.
  assert (Hsw : shaped k (MSw d)) by exact I.
  assert (Hsc : shaped k (MSc d)) by exact I.
  assert (Hse : shaped k (MSe d)) by exact Hle.
  unfold icc. rewrite Ha. cbn [bind]. cbv zeta.
  unfold expected_outcome, recognised, single_divisor_zero.
  change (n_raters d) with (Z.of_nat k). change (n_subjects d) with (Z.of_nat n).
  destruct (String.eqb unit "single") eqn:Eu.
  - assert (Eu' : String.eqb unit "average" = false).
    { apply String.eqb_eq in Eu. subst unit. reflexivity. }
    rewrite Eu'. cbn [orb andb negb].
    destruct (String.eqb model "oneway") eqn:Em.
    + assert (Em' : String.eqb model "twoway" = false).
      { apply String.eqb_eq in Em. subst model. reflexivity. }
      rewrite Em'. cbn [orb andb negb].
      apply (single_branch_outcome D k d); assumption.
    + destruct (String.eqb model "twoway"); cbn [orb andb negb];
        [ | reflexivity].
      destruct (String.eqb type "consistency") eqn:Et.
      * assert (Et' : String.eqb type "agreement" = false).
        { apply String.eqb_eq in Et. subst type. reflexivity. }
        rewrite Et'. cbn [orb andb negb].
        apply (single_branch_outcome D k d); assumption.
      * destruct (String.eqb type "agreement"); cbn [orb andb negb];
          [ | reflexivity].
        rewrite (single_agreement_error D k d r0 _ Hsr Hsc Hse).
        change (n_raters d) with (Z.of_nat k).
        change (n_subjects d) with (Z.of_nat n).
        rewrite agreement_error_single. reflexivity.
  - destruct (String.eqb unit "average"); cbn [orb andb negb];
      [ | reflexivity].
    destruct (String.eqb model "oneway") eqn:Em.
    + assert (Em' : String.eqb model "twoway" = false).
      { apply String.eqb_eq in Em. subst model. reflexivity. }
      rewrite Em'. cbn [orb andb negb].
      apply (average_branch_outcome D k d); assumption.
    + destruct (String.eqb model "twoway"); cbn [orb andb negb];
        [ | reflexivity].
      destruct (String.eqb type "consistency") eqn:Et.
      * assert (Et' : String.eqb type "agreement" = false).
        { apply String.eqb_eq in Et. subst type. reflexivity. }
        rewrite Et'. cbn [orb andb negb].
        apply (average_branch_outcome D k d); assumption.
      * destruct (String.eqb type "agreement"); cbn [orb andb negb];
          [ | reflexivity].
        rewrite (average_agreement_error D k d r0 _ Hsr Hsc Hse).
        change (n_raters d) with (Z.of_nat k).
        change (n_subjects d) with (Z.of_nat n).
        rewrite agreement_error_average. reflexivity.
Qed.


Lemma outcome_raises : forall (A : Type) (m : result A) e,
  outcome_of m = Raises e -> m = Err e.
Proof.
  intros A [a | e'] e H; [discriminate H | ].
  injection H as ->. reflexivity.
Qed.


(** Two runs of the same computation give the same result. *)
Ltac same_results :=
  repeat match goal with
         | H1 : ?t = Ok ?a, H2 : ?t = Ok ?b |- _ =>
             assert (a = b) by congruence; subst b; clear H2
         end.

Lemma single_branch_df : forall D d MSx z r0 alpha r,
  single_branch D d MSx z r0 alpha = Ok r ->
  df1 r = n_subjects d - 1 /\ df2 r = PyInt z.
Proof.
  intros D d MSx z r0 alpha r H. unfold single_branch in H.
  invert_binds. injection H as <-. split; reflexivity.
Qed.

Lemma average_branch_df : forall D d MSx z r0 alpha r,
  average_branch D d MSx z r0 alpha = Ok r ->
  df1 r = n_subjects d - 1 /\ df2 r = PyInt z.
Proof.
  intros D d MSx z r0 alpha r H. unfold average_branch in H.
  invert_binds. injection H as <-. split; reflexivity.
Qed.




Lemma single_branch_r0 : forall D d MSx z r0 r0' alpha r r',
  single_branch D d MSx z r0 alpha = Ok r ->
  single_branch D d MSx z r0' alpha = Ok r' ->
  interval_statistics r = interval_statistics r'.
Proof.
  intros D d MSx z r0 r0' alpha r r' E1 E2.
  unfold single_branch in E1, E2.
  invert_binds. same_results.
  injection E1 as <-. injection E2 as <-. reflexivity.
Qed.

Lemma average_branch_r0 : forall D d MSx z r0 r0' alpha r r',
  average_branch D d MSx z r0 alpha = Ok r ->
  average_branch D d MSx z r0' alpha = Ok r' ->
  interval_statistics r = interval_statistics r'.
Proof.
  intros D d MSx z r0 r0' alpha r r' E1 E2.
  unfold average_branch in E1, E2.
  invert_binds. same_results.
  injection E1 as <-. injection E2 as <-. reflexivity.
Qed.

Lemma icc_r0 : forall D ratings model type unit r0 r0' cl r r',
  icc D ratings model type unit r0 cl = Ok r ->
  icc D ratings model type unit r0' cl = Ok r' ->
  interval_statistics r = interval_statistics r'.
Proof.
  intros D ratings model type unit r0 r0' cl r r' E1 E2.
  unfold icc in E1, E2.
  apply bind_ok in E1. destruct E1 as (d & Ha & E1).
  apply bind_ok in E2. destruct E2 as (d' & Ha' & E2).
  rewrite Ha in Ha'. injection Ha' as <-.
  cbv zeta in E1, E2.
  destruct (String.eqb unit "single").
  - destruct (String.eqb model "oneway");
      [eapply single_branch_r0; eassumption | ].
    destruct (String.eqb model "twoway"); [ | discriminate E1].
    destruct (String.eqb type "consistency");
      [eapply single_branch_r0; eassumption | ].
    destruct (String.eqb type "agreement"); [ | discriminate E1].
    destruct (single_agreement_raises D d r0 (1 - cl)) as [e He].
    rewrite He in E1. discriminate E1.
  - destruct (String.eqb unit "average"); [ | discriminate E1].
    destruct (String.eqb model "oneway");
      [eapply average_branch_r0; eassumption | ].
    destruct (String.eqb model "twoway"); [ | discriminate E1].
    destruct (String.eqb type "consistency");
      [eapply average_branch_r0; eassumption | ].
    destruct (String.eqb type "agreement"); [ | discriminate E1].
    destruct (average_agreement_raises D d r0 (1 - cl)) as [e He].
    rewrite He in E1. discriminate E1.
Qed.

(** X8. [r0] enters the F value and the p-value only: two calls
    that differ in it alone and both return agree on the coefficient, the
    degrees of freedom and both bounds. *)
Theorem null_value_only_moves_the_test :
  forall D ratings model type unit r0 r0' cl,
    match icc D ratings model type unit r0 cl,
          icc D ratings model type unit r0' cl with
    | Ok r, Ok r' => interval_statistics r = interval_statistics r'
    | _, _ => True
    end.
Proof.
  intros D ratings model type unit r0 r0' cl.
  destruct (icc D ratings model type unit r0 cl) as [r | e] eqn:E1;
    [ | exact I].
  destruct (icc D ratings model type unit r0' cl) as [r' | e] eqn:E2;
    [ | exact I].
  exact (icc_r0 D ratings model type unit r0 r0' cl r r' E1 E2).
Qed.

Lemma icc_df : forall D n k rows model type unit r0 cl r,
  icc D (Arr2 n k rows) model type unit r0 cl = Ok r ->
  df1 r = Z.of_nat n - 1 /\ df2 r = PyInt (expected_df2 model n k).
Proof.
  intros D n k rows model type unit r0 cl r E.
  unfold icc in E.
  apply bind_ok in E. destruct E as (d & Ha & E).
  destruct (anova_facts n k rows d Ha) as (HN & HK & _).
  cbv zeta in E. unfold expected_df2. rewrite <- HN, <- HK.
  destruct (String.eqb unit "single").
  - destruct (String.eqb model "oneway");
      [eapply single_branch_df; eassumption | ].
    destruct (String.eqb model "twoway"); [ | discriminate E].
    destruct (String.eqb type "consistency");
      [eapply single_branch_df; eassumption | ].
    destruct (String.eqb type "agreement"); [ | discriminate E].
    destruct (single_agreement_raises D d r0 (1 - cl)) as [e He].
    rewrite He in E. discriminate E.
  - destruct (String.eqb unit "average"); [ | discriminate E].
    destruct (String.eqb model "oneway");
      [eapply average_branch_df; eassumption | ].
    destruct (String.eqb model "twoway"); [ | discriminate E].
    destruct (String.eqb type "consistency");
      [eapply average_branch_df; eassumption | ].
    destruct (String.eqb type "agreement"); [ | discriminate E].
    destruct (average_agreement_raises D d r0 (1 - cl)) as [e He].
    rewrite He in E. discriminate E.
Qed.

(** X6. Whenever [icc] returns, [df1] is [n_subjects - 1] and [df2]
    is the integer [n_subjects * (n_raters - 1)] for the one-way model and
    [(n_subjects - 1) * (n_raters - 1)] for two-way consistency: they depend
    on the shape only. *)
Theorem degrees_of_freedom_from_shape :
  forall D n k rows model type unit r0 cl,
    result_map (fun r => (df1 r, df2 r))
      (icc D (Arr2 n k rows) model type unit r0 cl)
    = result_map (fun _ => (Z.of_nat n - 1, PyInt (expected_df2 model n k)))
        (icc D (Arr2 n k rows) model type unit r0 cl).
Proof.
  intros D n k rows model type unit r0 cl.
  destruct (icc D (Arr2 n k rows) model type unit r0 cl) as [r | e] eqn:E;
    [ | reflexivity].
  destruct (icc_df D n k rows model type unit r0 cl r E) as [H1 H2].
  cbn [result_map bind]. rewrite H1, H2. reflexivity.
Qed.

(** X9. The returned p-value is the upper tail of the F distribution
    at the returned F value and the returned degrees of freedom: recomputing
    [1 - cdf(Fvalue, df1, df2)] on the result gives [pvalue] again. *)
Theorem pvalue_recomputed : forall D ratings model type unit r0 cl,
  bind (icc D ratings model type unit r0 cl)
       (fun r => c <- np_cdf D (Fvalue r) (df1 r) (df2 r) ;;
                 np_sub (np_int 1) c)
  = result_map pvalue (icc D ratings model type unit r0 cl).
Proof.
  intros D ratings model type unit r0 cl.
  destruct (icc D ratings model type unit r0 cl) as [r | e] eqn:E;
    [ | reflexivity].
  destruct (pvalue_is_upper_tail D ratings model type unit r0 cl r E)
    as (c & Hc & Hp).
  cbn [result_map bind]. rewrite Hc. cbn [bind]. exact Hp.
Qed.

(** X1.  [icc] raises [ValueError] exactly when the ratings array does not
    have two dimensions: the unpacking of [ratings.shape] at line 69 is the
    only origin of this exception, whatever the configuration, [r0] and the
    confidence level. *)
Theorem value_error_iff_not_two_dimensional :
  forall D ratings model type unit r0 cl,
    icc D ratings model type unit r0 cl = Err ValueError
    <-> ndim ratings <> 2%nat.
Proof.
  intros D ratings model type unit r0 cl.
  pose proof (icc_outcome D ratings model type unit r0 cl) as H.
  destruct ratings as [ | v | n k rows | m]; cbn [ndim];
    try (split; [intros _; lia | intros _; reflexivity]).
  split; [ | intro Hn; exfalso; apply Hn; reflexivity].
  intro E. exfalso. rewrite E in H.
  cbn [outcome_of] in H. unfold expected_outcome in H.
  destruct (negb (recognised model type unit)); [discriminate H | ].
  destruct (String.eqb model "twoway" && String.eqb type "agreement").
  - unfold agreement_error in H.
    destruct (Nat.eqb n 0 || Nat.eqb k 1 || Qeq_bool r0 1); discriminate H.
  - destruct (String.eqb unit "single" && single_divisor_zero k r0);
      discriminate H.
Qed.

(** X2. On a two-dimensional array, [icc] raises
    [UnboundLocalError] exactly when no branch of lines 79-193 matches the
    configuration, so that the [return] of line 195 reads names that were
    never assigned. *)
Theorem unbound_local_error_iff_unrecognised :
  forall D n k rows model type unit r0 cl,
    icc D (Arr2 n k rows) model type unit r0 cl = Err UnboundLocalError
    <-> recognised model type unit = false.
Proof.
  intros D n k rows model type unit r0 cl.
  pose proof (icc_outcome D (Arr2 n k rows) model type unit r0 cl) as Ho.
  unfold expected_outcome, agreement_error in Ho.
  split.
  - intro H. rewrite H in Ho. cbn [outcome_of] in Ho.
    destruct (recognised model type unit); [ | reflexivity].
    cbn [negb] in Ho.
    destruct (String.eqb model "twoway" && String.eqb type "agreement").
    + destruct (Nat.eqb n 0 || Nat.eqb k 1 || Qeq_bool r0 1); discriminate Ho.
    + destruct (String.eqb unit "single" && single_divisor_zero k r0);
        discriminate Ho.
  - intro H. rewrite H in Ho. cbn [negb] in Ho.
    apply outcome_raises. exact Ho.
Qed.




(** X5. A two-way agreement call on a two-dimensional array
    never returns, for either unit: it raises [ZeroDivisionError] when there
    is no subject, when there is exactly one rater or when [r0 = 1], and
    [TypeError], from the exclusive or, in every other case. *)
Theorem twoway_agreement_error_kind :
  forall D n k rows r0 cl,
    icc D (Arr2 n k rows) "twoway" "agreement" "single" r0 cl
    = Err (agreement_error n k r0)
    /\
    icc D (Arr2 n k rows) "twoway" "agreement" "average" r0 cl
    = Err (agreement_error n k r0).
Proof.
  intros D n k rows r0 cl. split; apply outcome_raises;
    rewrite icc_outcome; reflexivity.
Qed.

(** X12.  On every two-dimensional array the decomposition of lines 69-76
    is computed without raising; [n_subjects] and [n_raters] are the two
    dimensions, [MSr] and [MSe] are arrays with one entry per rater, and
    [SStotal], [MSw] and [MSc] are scalars. *)
Theorem decomposition_shapes : forall n k rows,
  exists d,
    anova (Arr2 n k rows) = Ok d /\
    n_subjects d = Z.of_nat n /\ n_raters d = Z.of_nat k /\
    np_len (MSr d) = Some k /\ np_len (MSe d) = Some k /\
    [np_len (SStotal d); np_len (MSw d); np_len (MSc d)] = [None; None; None].
Proof.
  intros n k rows.
  destruct (anova_shape n k rows) as (ss & msr & w & c & mse & Ha & Hlr & Hle).
  eexists. split; [exact Ha | ].
  cbn [n_subjects n_raters MSr MSe SStotal MSw MSc np_len].
  rewrite Hlr, Hle. repeat split.
Qed.

Lemma np_len_shaped : forall k a, np_len a = Some k -> shaped k a.
Proof.
  intros k [x | l] H; simpl in *; [exact I | congruence].
Qed.

Lemma np_len_map : forall g a, np_len (np_map g a) = np_len a.
Proof.
  intros g [x | l]; simpl; [reflexivity | rewrite length_map; reflexivity].
Qed.

Lemma np_binop_len_l : forall f k a b c,
  np_len a = Some k -> shaped k b -> np_binop f a b = Ok c ->
  np_len c = Some k /\ shaped k c.
Proof.
  intros f k a b c Ha Hb Hc.
  destruct (np_binop_get f k a b c (np_len_shaped k a Ha) Hb Hc) as [Hs _].
  split; [ | exact Hs].
  destruct a as [x | l1]; [discriminate Ha | ].
  destruct b as [y | l2]; simpl in Hc.
  - injection Hc as <-. simpl in Ha |- *. rewrite length_map. exact Ha.
  - simpl in Ha, Hb.
    assert (Hlen : length l1 = length l2) by congruence.
    rewrite Hlen, Nat.eqb_refl in Hc. injection Hc as <-.
    simpl. rewrite length_map2 by exact Hlen. exact Ha.
Qed.

Lemma np_binop_len_r : forall f k a b c,
  shaped k a -> np_len b = Some k -> np_binop f a b = Ok c ->
  np_len c = Some k /\ shaped k c.
Proof.
  intros f k a b c Ha Hb Hc.
  destruct (np_binop_get f k a b c Ha (np_len_shaped k b Hb) Hc) as [Hs _].
  split; [ | exact Hs].
  destruct b as [y | l2]; [discriminate Hb | ].
  destruct a as [x | l1]; simpl in Hc.
  - injection Hc as <-. simpl in Hb |- *. rewrite length_map. exact Hb.
  - simpl in Ha, Hb.
    assert (Hlen : length l1 = length l2) by congruence.
    rewrite Hlen, Nat.eqb_refl in Hc. injection Hc as <-.
    simpl. rewrite length_map2 by exact Hlen. congruence.
Qed.

Ltac len_tac :=
  first [ assumption
        | rewrite np_len_map; assumption ].

(** Every NumPy operation recorded in the context: the shape of its result,
    and its length when an operand is an array. *)
Ltac lengths k :=
  repeat match goal with
         | H : np_binop ?f ?a ?b = Ok ?c |- _ =>
             let Hl := fresh "Hl" in
             let Hs := fresh "Hs" in
             first
               [ destruct (np_binop_len_l f k a b c
                             ltac:(len_tac) ltac:(shaped_tac) H) as [Hl Hs]
               | destruct (np_binop_len_r f k a b c
                             ltac:(shaped_tac) ltac:(len_tac) H) as [Hl Hs]
               | destruct (np_binop_get f k a b c
                             ltac:(shaped_tac) ltac:(shaped_tac) H) as [Hs _] ];
             clear H
         end.

Lemma single_branch_lengths : forall D k d MSx z r0 alpha r,
  np_len (MSr d) = Some k -> shaped k MSx ->
  single_branch D d MSx z r0 alpha = Ok r ->
  array_lengths r = [Some k; Some k; Some k; Some k; Some k].
Proof.
  intros D k d MSx z r0 alpha r Hr Hx H.
  pose proof (np_len_shaped k _ Hr) as Hsr.
  unfold single_branch, single_denominator, conf_FL, conf_FU, bound_single,
    np_cdf, ppf, np_float, np_int, np_add, np_sub, np_mul, np_div in H.
  invert_binds. injection H as <-.
  match goal with
  | H : Ok (np_map _ _) = Ok _ |- _ => injection H as <-
  end.
  lengths k.
  unfold array_lengths. cbn [coeff Fvalue pvalue lbound ubound].
  repeat f_equal; assumption.
Qed.

Lemma average_branch_lengths : forall D k d MSx z r0 alpha r,
  np_len (MSr d) = Some k -> shaped k MSx ->
  average_branch D d MSx z r0 alpha = Ok r ->
  array_lengths r = [Some k; Some k; Some k; Some k; Some k].
Proof.
  intros D k d MSx z r0 alpha r Hr Hx H.
  pose proof (np_len_shaped k _ Hr) as Hsr.
  unfold average_branch, conf_FL, conf_FU, bound_average,
    np_cdf, ppf, np_float, np_int, np_add, np_sub, np_mul, np_div in H.
  invert_binds. injection H as <-.
  match goal with
  | H : Ok (np_map _ _) = Ok _ |- _ => injection H as <-
  end.
  lengths k.
  unfold array_lengths. cbn [coeff Fvalue pvalue lbound ubound].
  repeat f_equal; assumption.
Qed.

Lemma icc_lengths : forall D n k rows model type unit r0 cl r,
  icc D (Arr2 n k rows) model type unit r0 cl = Ok r ->
  array_lengths r = [Some k; Some k; Some k; Some k; Some k].
Proof.
  intros D n k rows model type unit r0 cl r E.
  destruct (anova_shape n k rows) as (ss & msr & w & c & mse & Ha & Hlr & Hle).
  unfold icc in E. rewrite Ha in E. cbn [bind] in E. cbv zeta in E.
  set (d := {| n_subjects := Z.of_nat n; n_raters := Z.of_nat k;
               SStotal := Scalar ss; MSr := Vec msr; MSw := Scalar w;
               MSc := Scalar c; MSe := Vec mse |}) in *.
  assert (Hr : np_len (MSr d) = Some k) by (simpl; congruence).
  assert (Hsw : shaped k (MSw d)) by exact I.
  assert (Hse : shaped k (MSe d)) by exact Hle.
  destruct (String.eqb unit "single").
  - destruct (String.eqb model "oneway");
      [exact (single_branch_lengths D k d (MSw d) _ r0 _ r Hr Hsw E) | ].
    destruct (String.eqb model "twoway"); [ | discriminate E].
    destruct (String.eqb type "consistency");
      [exact (single_branch_lengths D k d (MSe d) _ r0 _ r Hr Hse E) | ].
    destruct (String.eqb type "agreement"); [ | discriminate E].
    destruct (single_agreement_raises D d r0 (1 - cl)) as [e He].
    rewrite He in E. discriminate E.
  - destruct (String.eqb unit "average"); [ | discriminate E].
    destruct (String.eqb model "oneway");
      [exact (average_branch_lengths D k d (MSw d) _ r0 _ r Hr Hsw E) | ].
    destruct (String.eqb model "twoway"); [ | discriminate E].
    destruct (String.eqb type "consistency");
      [exact (average_branch_lengths D k d (MSe d) _ r0 _ r Hr Hse E) | ].
    destruct (String.eqb type "agreement"); [ | discriminate E].
    destruct (average_agreement_raises D d r0 (1 - cl)) as [e He].
    rewrite He in E. discriminate E.
Qed.

(** X13. Whenever [icc] returns, the coefficient, the F
    value, the p-value and both bounds are one-dimensional arrays with one
    entry per rater: the column means of line 73 broadcast through every
    formula. *)
Theorem returned_arrays_have_one_entry_per_rater :
  forall D n k rows model type unit r0 cl,
    result_map array_lengths (icc D (Arr2 n k rows) model type unit r0 cl)
    = result_map (fun _ => [Some k; Some k; Some k; Some k; Some k])
        (icc D (Arr2 n k rows) model type unit r0 cl).
Proof.
  intros D n k rows model type unit r0 cl.
  destruct (icc D (Arr2 n k rows) model type unit r0 cl) as [r | e] eqn:E;
    [ | reflexivity].
  cbn [result_map bind]. f_equal.
  exact (icc_lengths D n k rows model type unit r0 cl r E).
Qed.

Lemma null_scale_single : forall K : Z,
  py_div (1 - 0) (1 + inject_Z (K - 1) * 0) = Ok (1 / (1 + inject_Z (K - 1) * 0))%Q
  /\ np_float (1 / (1 + inject_Z (K - 1) * 0)) = np_float (1 - 0).
Proof.
  intro K. split.
  - rewrite py_div_spec.
    destruct (Qeq_bool (1 + inject_Z (K - 1) * 0) 0) eqn:E; [ | reflexivity].
    apply Qeq_bool_iff in E. exfalso. lra.
  - unfold np_float, fin. do 2 f_equal. apply Qred_complete. field; lra.
Qed.

Lemma branches_f_test_at_zero : forall D d MSx z alpha r1 r2,
  single_branch D d MSx z 0 alpha = Ok r1 ->
  average_branch D d MSx z 0 alpha = Ok r2 ->
  f_test r1 = f_test r2.
Proof.
  intros D d MSx z alpha r1 r2 E1 E2.
  unfold single_branch in E1. unfold average_branch in E2.
  destruct (null_scale_single (n_raters d)) as [Hdiv Hscale].
  invert_binds.
  match goal with
  | H : py_div _ _ = Ok ?s |- _ =>
      rewrite Hdiv in H; injection H as <-
  end.
  rewrite Hscale in *.
  same_results.
  injection E1 as <-. injection E2 as <-. reflexivity.
Qed.

Lemma branches_f_test_at_zero_map : forall D k d MSx z alpha,
  shaped k (MSr d) -> shaped k MSx ->
  result_map f_test (single_branch D d MSx z 0 alpha)
  = result_map f_test (average_branch D d MSx z 0 alpha).
Proof.
  intros D k d MSx z alpha Hr Hx.
  assert (Hnz : ~ (1 + inject_Z (n_raters d - 1) * 0 == 0)%Q) by lra.
  destruct (single_branch_returns D k d MSx z 0 alpha Hr Hx Hnz)
    as (r1 & _ & _ & E1 & _).
  destruct (average_branch_returns D k d MSx z 0 alpha Hr Hx)
    as (r2 & _ & E2 & _).
  rewrite E1, E2. cbn [result_map bind]. f_equal.
  exact (branches_f_test_at_zero D d MSx z alpha r1 r2 E1 E2).
Qed.

(** X14. At [r0 = 0] the single and the average unit run the
    same F test: same outcome and, when they return, the same F value,
    degrees of freedom and p-value. *)
Theorem f_test_same_for_single_and_average_at_zero :
  forall D ratings model type cl,
    result_map f_test (icc D ratings model type "single" 0 cl)
    = result_map f_test (icc D ratings model type "average" 0 cl).
Proof.
  intros D [ | v | n k rows | m] model type cl; try reflexivity.
  destruct (anova_shape n k rows) as (ss & msr & w & c & mse & Ha & Hlr & Hle).
  set (d := {| n_subjects := Z.of_nat n; n_raters := Z.of_nat k;
               SStotal := Scalar ss; MSr := Vec msr; MSw := Scalar w;
               MSc := Scalar c; MSe := Vec mse |}) in *.
  assert (Hsr : shaped k (MSr d)) by exact Hlr.
  assert (Hsw : shaped k (MSw d)) by exact I.
  assert (Hsc : shaped k (MSc d)) by exact I.
  assert (Hse : shaped k (MSe d)) by exact Hle.
  unfold icc. rewrite Ha. cbn [bind]. cbv zeta.
  change (String.eqb "single" "single") with true.
  change (String.eqb "average" "single") with false.
  change (String.eqb "average" "average") with true.
  cbv iota.
  destruct (String.eqb model "oneway");
    [apply (branches_f_test_at_zero_map D k); assumption | ].
  destruct (String.eqb model "twoway"); [ | reflexivity].
  destruct (String.eqb type "consistency");
    [apply (branches_f_test_at_zero_map D k); assumption | ].
  destruct (String.eqb type "agreement"); [ | reflexivity].
  rewrite (single_agreement_error D k d 0 _ Hsr Hsc Hse).
  rewrite (average_agreement_error D k d 0 _ Hsr Hsc Hse).
  change (n_raters d) with (Z.of_nat k).
  change (n_subjects d) with (Z.of_nat n).
  rewrite agreement_error_single, agreement_error_average. reflexivity.
Qed.













